(** * Language routing and translation orchestration of che-gpt

    A shallow embedding of [src/services/translation_service.py]:
    the module constants, the two sub-detectors, the hybrid
    [_detect_language] policy and [translate_text].

    Python strings are sequences of Unicode code points, so a [str] is a
    list of code points.  The three collaborators of the service (the
    langdetect classifier, the completion client and the translator) are
    parameters.  Every call a coroutine makes is recorded in a trace, so
    that "is invoked exactly once" and "is never invoked" are statements
    about the code. Logging has no influence on results and is left out. *)

From Stdlib Require Import List Bool Arith NArith ZArith Lia String Ascii.
Import ListNotations.

(** ** Python strings *)

Module PyStr.

Definition str := list N.

(** A literal of the source, as the code points of its ASCII characters. *)
Definition lit (s : string) : str := map N_of_ascii (list_ascii_of_string s).

Fixpoint eqb (a b : str) : bool :=
  match a, b with
  | [], [] => true
  | x :: a', y :: b' => N.eqb x y && eqb a' b'
  | _, _ => false
  end.

(** [str.isspace] on one code point: the Unicode white-space set that
    [split()] and [strip()] without arguments use. *)
Definition isspace (c : N) : bool :=
  ((9 <=? c) && (c <=? 13) || (28 <=? c) && (c <=? 32)
   || (c =? 133) || (c =? 160) || (c =? 5760)
   || (8192 <=? c) && (c <=? 8202)
   || (c =? 8232) || (c =? 8233) || (c =? 8239) || (c =? 8287)
   || (c =? 12288))%N.

Fixpoint lstrip (s : str) : str :=
  match s with
  | [] => []
  | c :: rest => if isspace c then lstrip rest else s
  end.

Definition rstrip (s : str) : str := rev (lstrip (rev s)).

(** [s.strip()] *)
Definition strip (s : str) : str := rstrip (lstrip s).

(** [s.split()]: the maximal runs of non-white-space characters.  [cur]
    holds the characters of the word being read, last one first. *)
Fixpoint split_from (cur : str) (s : str) : list str :=
  match s with
  | [] => match cur with [] => [] | _ => [rev cur] end
  | c :: rest =>
      if isspace c
      then match cur with
           | [] => split_from [] rest
           | _ => rev cur :: split_from [] rest
           end
      else split_from (c :: cur) rest
  end.

Definition split (s : str) : list str := split_from [] s.

(** [s.startswith(p)] *)
Fixpoint startswith (p s : str) : bool :=
  match p, s with
  | [], _ => true
  | _ :: _, [] => false
  | x :: p', y :: s' => N.eqb x y && startswith p' s'
  end.

(** [p in s]: substring containment. *)
Fixpoint contains (p s : str) : bool :=
  startswith p s || match s with [] => false | _ :: s' => contains p s' end.

Definition ascii_lower (c : N) : N :=
  if ((65 <=? c) && (c <=? 90))%N then (c + 32)%N else c.

Section Lower.
(** The lower-case mapping of a code point outside ASCII, from the
    Unicode tables of the interpreter.  It may yield several code
    points and, for the capital sigma, depends on the characters
    around it: the characters before and after are passed along. *)
Variable nonascii_lower : str -> N -> str -> str.

Fixpoint lower_from (before s : str) : str :=
  match s with
  | [] => []
  | c :: after =>
      (if (c <? 128)%N then [ascii_lower c]
       else nonascii_lower before c after)
        ++ lower_from (before ++ [c]) after
  end.

(** [s.lower()] *)
Definition lower (s : str) : str := lower_from [] s.
End Lower.

(** [s[:n]] *)
Definition slice_to (n : nat) (s : str) : str := firstn n s.

End PyStr.

Import PyStr.

(** ** Exceptions, results and the call trace *)

#[local] Set Warnings "-register-all".

(** What the service and its collaborators can raise.  The first four
    are instances of [Exception]: the three classes the source names,
    and [OtherException] for an instance of any other class that derives
    from [Exception].  [BaseExceptionOnly] is an instance of a class
    that derives from [BaseException] but not from [Exception], such as
    [asyncio.CancelledError], [KeyboardInterrupt] and [SystemExit]: an
    [except Exception] clause does not receive it.  [AppError] carries
    its message and the cause it was raised [from]. *)
Inductive exn : Type :=
| LangDetectException (msg : str)
| TranslationError (msg : str)
| AppError (msg : str) (cause : option exn)
| OtherException (cls msg : str)
| BaseExceptionOnly (cls msg : str).

(** [isinstance(e, Exception)] *)
Definition is_Exception (e : exn) : bool :=
  match e with BaseExceptionOnly _ _ => false | _ => true end.

Definition is_TranslationError (e : exn) : bool :=
  match e with TranslationError _ => true | _ => false end.

Definition is_LangDetectException (e : exn) : bool :=
  match e with LangDetectException _ => true | _ => false end.

Inductive result (A : Type) : Type :=
| Return (a : A)
| Raise (e : exn).
Arguments Return {A} a.
Arguments Raise {A} e.

(** What a coroutine of the service does to the outside, in order: the
    entry into one of the detection methods, or a call of a collaborator
    with its argument. *)
Inductive call : Type :=
| Enter_detect_language
| Enter_detect_language_llm
| Enter_detect_language_statistical
| Call_detect (text : str)
| Call_acomplete (prompt : str)
| Call_translate (text : str).

Definition is_llm_entry (c : call) : bool :=
  match c with Enter_detect_language_llm => true | _ => false end.
Definition is_statistical_entry (c : call) : bool :=
  match c with Enter_detect_language_statistical => true | _ => false end.
Definition is_detect_call (c : call) : bool :=
  match c with Call_detect _ => true | _ => false end.
Definition is_acomplete_call (c : call) : bool :=
  match c with Call_acomplete _ => true | _ => false end.
Definition is_translate_call (c : call) : bool :=
  match c with Call_translate _ => true | _ => false end.

Definition count (p : call -> bool) (tr : list call) : nat :=
  List.length (filter p tr).

(** A coroutine run to completion: the calls it made and how it ended. *)
Definition M (A : Type) : Type := (list call * result A)%type.

Definition ret {A} (a : A) : M A := ([], Return a).
Definition raise {A} (e : exn) : M A := ([], Raise e).
Definition tell (c : call) : M unit := ([c], Return tt).

Definition bind {A B} (m : M A) (f : A -> M B) : M B :=
  match m with
  | (tr, Return a) => let (tr', r) := f a in (tr ++ tr', r)
  | (tr, Raise e) => (tr, Raise e)
  end.

(** [try: m except Exception as e: h e], also for a [try] with several
    clauses, all for [Exception] or classes deriving from it: [h] then
    chooses the clause.  An exception that is not an instance of
    [Exception] matches no clause and leaves the [try] as it is. *)
Definition try_except {A} (m : M A) (h : exn -> M A) : M A :=
  match m with
  | (tr, Raise e) =>
      if is_Exception e then let (tr', r) := h e in (tr ++ tr', r)
      else (tr, Raise e)
  | (tr, Return a) => (tr, Return a)
  end.

(** The call of a collaborator, recorded and then completed with the
    collaborator's answer. *)
Definition invoke {A} (c : call) (answer : result A) : M A := ([c], answer).

Definition trace {A} (m : M A) : list call := fst m.
Definition outcome {A} (m : M A) : result A := snd m.

Declare Scope py_scope.
Delimit Scope py_scope with py.
Notation "x <- m ;; k" := (bind m (fun x => k))
  (at level 61, m at next level, right associativity) : py_scope.
Notation "m ;;; k" := (bind m (fun _ => k))
  (at level 61, right associativity) : py_scope.
Open Scope py_scope.

(** ** Binary floating point, as far as the ASCII ratio needs it *)

Module Float.

(** A finite, non-negative binary64 value [mant * 2 ^ expo]. *)
Record float : Type := mk { mant : Z; expo : Z }.

(** The integer nearest to [n / d], the even one of two at equal
    distance. *)
Definition round_half_even (n d : Z) : Z :=
  let q := (n / d)%Z in
  match (2 * (n mod d) ?= d)%Z with
  | Lt => q
  | Gt => (q + 1)%Z
  | Eq => if Z.even q then q else (q + 1)%Z
  end.

(** [a / b] on Python integers with [0 <= a <= b] and [0 < b]: the
    exact quotient, correctly rounded to 53 significant bits.  The
    quotient is first scaled by [2 ^ s] into [2 ^ 52, 2 ^ 53).  For two
    counts of characters the quotient is 0 or lies between [2 ^ -63]
    and 1, well inside the normal range of binary64. *)
Definition int_true_divide (a b : Z) : float :=
  if (a =? 0)%Z then mk 0 0
  else
    let s0 := (52 + Z.log2 b - Z.log2 a)%Z in
    let s := if (a * 2 ^ s0 <? b * 2 ^ 52)%Z then (s0 + 1)%Z else s0 in
    mk (round_half_even (a * 2 ^ s) b) (- s).

(** [x > y] *)
Definition gt (x y : float) : bool :=
  let e := Z.min (expo x) (expo y) in
  (mant y * 2 ^ (expo y - e) <? mant x * 2 ^ (expo x - e))%Z.

(** The literal [0.9]: the binary64 value 0x1.ccccccccccccdp-1. *)
Definition f0_9 : float := mk 8106479329266893 (-53).

End Float.

(** ** The translation service *)

(** *** Module constants *)

Definition en : str := lit "en".
Definition es : str := lit "es".

Definition SUPPORTED_LANGS : list str := [en; es].
Definition UNKNOWN_LANG_CODE : str := lit "unknown".

Definition is_az (c : N) : bool := ((97 <=? c) && (c <=? 122))%N.

(** [ISO_639_1_PATTERN.match(s)] for the pattern [^[a-z]{2}$].  [match]
    anchors at the start of [s]; without the MULTILINE flag, [$] matches
    at the end of [s] and also just before a line feed that is the last
    character of [s]. *)
Definition ISO_639_1_PATTERN_match (s : str) : bool :=
  match s with
  | [a; b] => is_az a && is_az b
  | [a; b; c] => is_az a && is_az b && (c =? 10)%N
  | _ => false
  end.

(** [LANG_DETECT_PROMPT_TEMPLATE.format(user_input=detection_text)]:
    the prompt text with the placeholder replaced. *)
Definition LANG_DETECT_PROMPT_head : str :=
  lit "Identify the primary language of the following text. Respond with ONLY the two-letter ISO 639-1 language code (e.g., 'en', 'es', 'fr'). If you are unsure, the text is nonsensical, gibberish, or not a real language, respond with '"
  ++ UNKNOWN_LANG_CODE ++ lit "'. Text:" ++ [10%N].

Definition LANG_DETECT_PROMPT_tail : str := [10%N] ++ lit "Language code:".

Definition LANG_DETECT_PROMPT_format (user_input : str) : str :=
  LANG_DETECT_PROMPT_head ++ user_input ++ LANG_DETECT_PROMPT_tail.

(** [x in xs] on a list of strings *)
Definition mem (x : str) (xs : list str) : bool := existsb (eqb x) xs.

Definition english_markers : list str :=
  [ lit "let's"; lit "let us"; lit "we'll"; lit "we will";
    lit "i'm"; lit "i am"; lit "you're"; lit "you are" ].

Definition EMPTY_TEXT_MESSAGE : str :=
  lit "Please provide some text to translate.".

Definition UNSUPPORTED_MESSAGE (detected_lang : str) : str :=
  lit "Sorry, I currently only support English ('en') and Spanish ('es'). Detected: "
  ++ detected_lang.

Definition DETECTION_SETUP_ERROR : str :=
  lit "An unexpected error occurred during language detection setup.".

Definition TRANSLATION_PROCESS_ERROR : str :=
  lit "An unexpected error occurred during the translation process.".

(** [sum(1 for c in text if ord(c) < 128)] *)
Definition ascii_count (text : str) : nat :=
  List.length (filter (fun c => (c <? 128)%N) text).

(** [len(text) if text else 1] *)
Definition total_count (text : str) : nat :=
  match text with [] => 1 | _ => List.length text end.

(** [detected_lang not in SUPPORTED_LANGS and
     detected_lang != UNKNOWN_LANG_CODE] *)
Definition unsupported (detected_lang : str) : bool :=
  negb (mem detected_lang SUPPORTED_LANGS)
  && negb (eqb detected_lang UNKNOWN_LANG_CODE).

Section TranslationService.

(** The lower-case tables behind [str.lower]. *)
Variable nonascii_lower : str -> N -> str -> str.
(** [langdetect.detect] *)
Variable detect : str -> result str.
(** [self.lang_detect_llm.acomplete(prompt)], giving [completion.text] *)
Variable acomplete : str -> result str.
(** [self.translator.translate] *)
Variable translate : str -> result str.
(** [settings.SHORT_INPUT_WORD_THRESHOLD] *)
Variable SHORT_INPUT_WORD_THRESHOLD : Z.

Definition _detect_language_statistical (text : str) : M str :=
  tell Enter_detect_language_statistical ;;;
  try_except
    (detected_lang <- invoke (Call_detect text) (detect text) ;;
     if ISO_639_1_PATTERN_match detected_lang
     then ret (lower nonascii_lower detected_lang)
     else ret UNKNOWN_LANG_CODE)
    (fun e =>
       if is_LangDetectException e then ret UNKNOWN_LANG_CODE
       else ret UNKNOWN_LANG_CODE).

Definition _detect_language_llm (text : str) : M str :=
  tell Enter_detect_language_llm ;;;
  try_except
    (let detection_text :=
       if 100 <? List.length text then slice_to 100 text else text in
     let prompt := LANG_DETECT_PROMPT_format detection_text in
     completion <- invoke (Call_acomplete prompt) (acomplete prompt) ;;
     let detected_lang := lower nonascii_lower (strip completion) in
     if eqb detected_lang UNKNOWN_LANG_CODE
        || ISO_639_1_PATTERN_match detected_lang
     then ret detected_lang
     else ret UNKNOWN_LANG_CODE)
    (fun _ => ret UNKNOWN_LANG_CODE).

(** The loop over the markers returns at the first one found in the
    lower-cased text. *)
Definition has_english_marker (text : str) : bool :=
  let text_lower := lower nonascii_lower text in
  existsb (fun marker => contains marker text_lower) english_markers.

(** The choice of the detector by the number of words. *)
Definition tier_detection (text : str) : M str :=
  let word_count := Z.of_nat (List.length (split text)) in
  if (word_count <=? SHORT_INPUT_WORD_THRESHOLD)%Z
  then _detect_language_llm text
  else _detect_language_statistical text.

Definition _detect_language (text : str) : M str :=
  tell Enter_detect_language ;;;
  if has_english_marker text then ret en
  else
    detected_lang <- tier_detection text ;;
    if unsupported detected_lang then
      let ascii_chars := Z.of_nat (ascii_count text) in
      let total_chars := Z.of_nat (total_count text) in
      let ascii_ratio := Float.int_true_divide ascii_chars total_chars in
      if Float.gt ascii_ratio Float.f0_9 then ret en
      else ret detected_lang
    else ret detected_lang.

Definition translate_text (text : str) : M str :=
  match strip text with
  | [] => ret EMPTY_TEXT_MESSAGE
  | _ :: _ =>
      detected_lang <-
        try_except (_detect_language text)
          (fun e => raise (AppError DETECTION_SETUP_ERROR (Some e))) ;;
      if unsupported detected_lang
      then ret (UNSUPPORTED_MESSAGE detected_lang)
      else
        try_except
          (translated_text <- invoke (Call_translate text) (translate text) ;;
           ret translated_text)
          (fun e =>
             if is_TranslationError e then raise e
             else raise (AppError TRANSLATION_PROCESS_ERROR (Some e)))
  end.

(** *** The answers of the detectors as plain functions

    The values the coroutines above return, without the trace, and
    the exception that passes through them when a collaborator raises
    one that is not an instance of [Exception].  The lemmas
    [statistical_run], [llm_run], [tier_run] and [detect_language_run]
    below show that the coroutines compute them. *)

(** The exception of an answer that no [except Exception] clause
    receives. *)
Definition passes_through (answer : result str) : option exn :=
  match answer with
  | Raise e => if is_Exception e then None else Some e
  | Return _ => None
  end.

(** Raise the exception that passed through, or return the value. *)
Definition finish (passed : option exn) (value : str) : result str :=
  match passed with
  | Some e => Raise e
  | None => Return value
  end.

Definition statistical_code (text : str) : str :=
  match detect text with
  | Return raw =>
      if ISO_639_1_PATTERN_match raw then lower nonascii_lower raw
      else UNKNOWN_LANG_CODE
  | Raise _ => UNKNOWN_LANG_CODE
  end.

Definition detection_text (text : str) : str :=
  if 100 <? List.length text then slice_to 100 text else text.

Definition llm_code (text : str) : str :=
  match acomplete (LANG_DETECT_PROMPT_format (detection_text text)) with
  | Return raw =>
      let cleaned := lower nonascii_lower (strip raw) in
      if eqb cleaned UNKNOWN_LANG_CODE || ISO_639_1_PATTERN_match cleaned
      then cleaned else UNKNOWN_LANG_CODE
  | Raise _ => UNKNOWN_LANG_CODE
  end.

Definition word_count (text : str) : Z :=
  Z.of_nat (List.length (split text)).

Definition tier_code (text : str) : str :=
  if (word_count text <=? SHORT_INPUT_WORD_THRESHOLD)%Z
  then llm_code text else statistical_code text.

Definition tier_passes_through (text : str) : option exn :=
  if (word_count text <=? SHORT_INPUT_WORD_THRESHOLD)%Z
  then passes_through
         (acomplete (LANG_DETECT_PROMPT_format (detection_text text)))
  else passes_through (detect text).

Definition tier_trace (text : str) : list call :=
  if (word_count text <=? SHORT_INPUT_WORD_THRESHOLD)%Z
  then [Enter_detect_language_llm;
        Call_acomplete (LANG_DETECT_PROMPT_format (detection_text text))]
  else [Enter_detect_language_statistical; Call_detect text].

Definition ascii_override (text detected_lang : str) : str :=
  if unsupported detected_lang
     && Float.gt (Float.int_true_divide (Z.of_nat (ascii_count text))
                                        (Z.of_nat (total_count text)))
                 Float.f0_9
  then en else detected_lang.

(** *** The routing property of [translate_text]

    With [detected_lang] the code [_detect_language] returns for
    [text]: the translator is called, once and with [text], when the
    code is supported or unknown; otherwise the answer is the fixed
    notice naming the code, and the translator is not called. *)
Definition routes_by_detected_code (text : str) : Prop :=
  forall detected_lang,
    outcome (_detect_language text) = Return detected_lang ->
    ((detected_lang = en \/ detected_lang = es
      \/ detected_lang = UNKNOWN_LANG_CODE) ->
     filter is_translate_call (trace (translate_text text))
     = [Call_translate text]) /\
    (~ (detected_lang = en \/ detected_lang = es
        \/ detected_lang = UNKNOWN_LANG_CODE) ->
     outcome (translate_text text)
     = Return (UNSUPPORTED_MESSAGE detected_lang) /\
     filter is_translate_call (trace (translate_text text)) = []).

End TranslationService.

Arguments en : simpl never.
Arguments es : simpl never.
Arguments UNKNOWN_LANG_CODE : simpl never.
Arguments EMPTY_TEXT_MESSAGE : simpl never.
Arguments UNSUPPORTED_MESSAGE : simpl never.
Arguments DETECTION_SETUP_ERROR : simpl never.
Arguments TRANSLATION_PROCESS_ERROR : simpl never.
Arguments LANG_DETECT_PROMPT_format : simpl never.

(** *** Conditions on the input text *)

(** The lower-cased text contains one of the English markers somewhere:
    before and after the marker anything may stand. *)
Definition contains_english_marker
    (nonascii_lower : str -> N -> str -> str) (text : str) : Prop :=
  exists marker,
    In marker english_markers /\
    exists pre post, lower nonascii_lower text = pre ++ marker ++ post.

(** The text is empty or consists of white space only. *)
Definition blank (text : str) : Prop :=
  Forall (fun c => isspace c = true) text.

(** *** Shapes of a detection result *)

(** A two-letter, all-lower-case code. *)
Definition is_two_letter_code (s : str) : bool :=
  match s with
  | [a; b] => is_az a && is_az b
  | _ => false
  end.

(** The invariant of a detection result: a two-letter lower-case code
    or the unknown sentinel. *)
Definition is_detection_result (s : str) : Prop :=
  is_two_letter_code s = true \/ s = UNKNOWN_LANG_CODE.

(** An ASCII letter, upper or lower case. *)
Definition is_ascii_letter (c : N) : bool :=
  ((65 <=? c) && (c <=? 90) || (97 <=? c) && (c <=? 122))%N.

(** *** Collaborators for the examples *)

(** A lower-case table that leaves every code point outside ASCII as it
    is. *)
Definition plain_lower : str -> N -> str -> str := fun _ c _ => [c].

(** A collaborator that returns the same text at every call. *)
Definition always (answer : str) : str -> result str :=
  fun _ => Return answer.

(** A collaborator that fails with the same exception at every call. *)
Definition failing (e : exn) : str -> result str := fun _ => Raise e.

(** The exception a cancelled task receives at its [await]. *)
Definition CancelledError : exn :=
  BaseExceptionOnly (lit "asyncio.CancelledError") [].

(** * Properties *)

(** ** The comparison of the ASCII ratio with 0.9 *)

Module FloatFacts.
Import Float.
Local Open Scope Z_scope.

Example one_third :
  int_true_divide 1 3 = mk 6004799503160661 (-54).
Proof. reflexivity. Qed.

Example nine_tenths_is_not_above_0_9 :
  gt (int_true_divide 9 10) f0_9 = false
  /\ gt (int_true_divide 91 100) f0_9 = true
  /\ gt (int_true_divide 7 7) f0_9 = true.
Proof. repeat split. Qed.

Lemma round_half_even_above (n d k : Z) :
  0 < d -> 0 <= n -> Z.odd k = true ->
  (k + 1 <= round_half_even n d <-> (2 * k + 1) * d <= 2 * n).
Proof.
  intros Hd Hn Hk. unfold round_half_even.
  pose proof (Z.div_mod n d ltac:(lia)) as E.
  pose proof (Z.mod_pos_bound n d Hd) as B.
  set (q := n / d) in *. set (r := n mod d) in *.
  apply Z.odd_spec in Hk. destruct Hk as [k' ->].
  destruct (Z.compare_spec (2 * r) d) as [C | C | C].
  - destruct (Z.even q) eqn:Ev.
    + apply Z.even_spec in Ev. destruct Ev as [q' Eq']. split; intro; nia.
    + split; intro; nia.
  - split; intro; nia.
  - split; intro; nia.
Qed.

Lemma round_half_even_upper (n d k : Z) :
  0 < d -> 0 <= n -> n <= k * d -> round_half_even n d <= k.
Proof.
  intros Hd Hn Hk. unfold round_half_even.
  pose proof (Z.div_mod n d ltac:(lia)) as E.
  pose proof (Z.mod_pos_bound n d Hd) as B.
  set (q := n / d) in *. set (r := n mod d) in *.
  destruct (Z.compare_spec (2 * r) d) as [C | C | C];
    [destruct (Z.even q) | | ]; nia.
Qed.

Lemma round_half_even_lower (n d k : Z) :
  0 < d -> 0 <= n -> k * d <= n -> k <= round_half_even n d.
Proof.
  intros Hd Hn Hk. unfold round_half_even.
  pose proof (Z.div_mod n d ltac:(lia)) as E.
  pose proof (Z.mod_pos_bound n d Hd) as B.
  set (q := n / d) in *. set (r := n mod d) in *.
  destruct (Z.compare_spec (2 * r) d) as [C | C | C];
    [destruct (Z.even q) | | ]; nia.
Qed.

(** The scaling of [int_true_divide] puts the quotient in
    [2 ^ 52, 2 ^ 53). *)
Lemma scaling_range (a b : Z) :
  0 < a <= b ->
  let s0 := 52 + Z.log2 b - Z.log2 a in
  let s := if a * 2 ^ s0 <? b * 2 ^ 52 then s0 + 1 else s0 in
  52 <= s /\ b * 2 ^ 52 <= a * 2 ^ s < b * 2 ^ 53.
Proof.
  intros [Ha Hab]. cbv zeta.
  pose proof (Z.log2_spec a Ha) as [La Ua].
  pose proof (Z.log2_spec b ltac:(lia)) as [Lb Ub].
  pose proof (Z.log2_nonneg a) as Na.
  pose proof (Z.log2_le_mono a b Hab) as Mab.
  set (la := Z.log2 a) in *. set (lb := Z.log2 b) in *.
  replace (Z.succ la) with (la + 1) in Ua by lia.
  replace (Z.succ lb) with (lb + 1) in Ub by lia.
  rewrite Z.pow_add_r in Ua, Ub by lia. change (2 ^ 1) with 2 in Ua, Ub.
  assert (Es0 : 2 ^ (52 + lb - la) * 2 ^ la = 2 ^ 52 * 2 ^ lb).
  { rewrite <- !Z.pow_add_r by lia. f_equal. lia. }
  assert (P52 : 0 < 2 ^ 52) by (apply Z.pow_pos_nonneg; lia).
  assert (Pla : 0 < 2 ^ la) by (apply Z.pow_pos_nonneg; lia).
  assert (Plb : 0 < 2 ^ lb) by (apply Z.pow_pos_nonneg; lia).
  assert (Ps0 : 0 < 2 ^ (52 + lb - la)) by (apply Z.pow_pos_nonneg; lia).
  set (p52 := 2 ^ 52) in *. set (pla := 2 ^ la) in *. set (plb := 2 ^ lb) in *.
  destruct (Z.ltb_spec (a * 2 ^ (52 + lb - la)) (b * p52)) as [C | C].
  - replace (52 + lb - la + 1) with ((52 + lb - la) + 1) by lia.
    rewrite Z.pow_add_r by lia. change (2 ^ 1) with 2.
    change (2 ^ 53) with (2 ^ 52 * 2). fold p52.
    set (ps0 := 2 ^ (52 + lb - la)) in *.
    split; [ | split ].
    + lia.
    + nia.
    + nia.
  - set (ps0 := 2 ^ (52 + lb - la)) in *.
    change (2 ^ 53) with (2 ^ 52 * 2). fold p52.
    split; [ lia | split; [ lia | nia ] ].
Qed.

(** The rounded quotient exceeds the literal [0.9] exactly when the
    exact quotient reaches the midpoint between that binary64 value and
    the next one. *)
Lemma gt_0_9_iff (a b : Z) :
  0 <= a <= b -> 0 < b ->
  gt (int_true_divide a b) f0_9 = true
  <-> 16212958658533787 * b <= a * 2 ^ 54.
Proof.
  intros Hab Hb. unfold int_true_divide.
  destruct (Z.eqb_spec a 0) as [-> | Na].
  - split; [ discriminate | lia ].
  - pose proof (@scaling_range a b ltac:(lia)) as R. cbv zeta in R.
    set (s := if a * 2 ^ (52 + Z.log2 b - Z.log2 a) <? b * 2 ^ 52
              then 52 + Z.log2 b - Z.log2 a + 1
              else 52 + Z.log2 b - Z.log2 a) in *.
    clearbody s. destruct R as [Hs [Lo Hi]].
    assert (Hm : 2 ^ 52 <= round_half_even (a * 2 ^ s) b <= 2 ^ 53).
    { assert (0 < 2 ^ s) by (apply Z.pow_pos_nonneg; lia).
      split; [ apply round_half_even_lower | apply round_half_even_upper ];
        nia. }
    unfold gt, f0_9; cbn [mant expo]. rewrite Z.ltb_lt.
    destruct (Z.eq_dec s 52) as [E52 | N52];
      [ | destruct (Z.eq_dec s 53) as [E53 | N53] ].
    + replace (Z.min (- s) (-53)) with (-53) by lia.
      replace (-53 - -53) with 0 by lia. replace (- s - -53) with 1 by lia.
      subst s. change (2 ^ 0) with 1. change (2 ^ 1) with 2.
      change (2 ^ 52) with 4503599627370496 in *.
      change (2 ^ 54) with 18014398509481984.
      split; intro; lia.
    + replace (Z.min (- s) (-53)) with (-53) by lia.
      replace (-53 - -53) with 0 by lia. replace (- s - -53) with 0 by lia.
      subst s. change (2 ^ 0) with 1.
      rewrite !Z.mul_1_r.
      pose proof (@round_half_even_above (a * 2 ^ 53) b 8106479329266893
                    Hb ltac:(lia) eq_refl) as A.
      change (2 ^ 54) with (2 ^ 53 * 2).
      change (2 * 8106479329266893 + 1) with 16212958658533787 in A.
      split; intro H.
      * assert (H' : 8106479329266893 + 1
                     <= round_half_even (a * 2 ^ 53) b) by lia.
        apply A in H'. lia.
      * assert (H' : 16212958658533787 * b <= 2 * (a * 2 ^ 53)) by lia.
        apply A in H'. lia.
    + rewrite Z.min_l by lia.
      replace (-53 - - s) with (s - 53) by lia.
      replace (- s - - s) with 0 by lia. change (2 ^ 0) with 1.
      pose proof (Z.pow_le_mono_r 2 1 (s - 53) ltac:(lia) ltac:(lia)) as P1.
      pose proof (Z.pow_le_mono_r 2 54 s ltac:(lia) ltac:(lia)) as P2.
      change (2 ^ 1) with 2 in P1.
      change (2 ^ 53) with 9007199254740992 in *.
      change (2 ^ 54) with 18014398509481984 in *.
      split; intro; nia.
Qed.

(** Whenever the test of the source succeeds, the exact fraction is
    above nine tenths. *)
Lemma gt_0_9_sound (a b : Z) :
  0 <= a <= b -> 0 < b ->
  gt (int_true_divide a b) f0_9 = true -> 9 * b < 10 * a.
Proof.
  intros Hab Hb H. apply gt_0_9_iff in H; try assumption.
  change (2 ^ 54) with 18014398509481984 in H. lia.
Qed.

(** Up to [2 ^ 54 / 14] characters the test of the source is the exact
    comparison of the fraction with nine tenths. *)
Lemma gt_0_9_exact (a b : Z) :
  0 <= a <= b -> 0 < b -> 14 * b <= 2 ^ 54 ->
  gt (int_true_divide a b) f0_9 = (9 * b <? 10 * a).
Proof.
  intros Hab Hb Hlen.
  destruct (Z.ltb_spec (9 * b) (10 * a)) as [C | C].
  - apply gt_0_9_iff; try assumption.
    change (2 ^ 54) with 18014398509481984 in *. lia.
  - destruct (gt (int_true_divide a b) f0_9) eqn:G; [ | reflexivity ].
    apply gt_0_9_sound in G; try assumption. lia.
Qed.

End FloatFacts.

(** ** Strings *)

Module PyStrFacts.

Example split_strip_lower :
  split (lit "  Che,  BOLUDO ") = [lit "Che,"; lit "BOLUDO"]
  /\ strip (lit "  Che,  BOLUDO ") = lit "Che,  BOLUDO"
  /\ lower (fun _ c _ => [c]) (lit "Che,  BOLUDO") = lit "che,  boludo"
  /\ contains (lit "i am") (lit "mi amor") = true.
Proof. repeat split. Qed.

Lemma eqb_eq (a b : str) : eqb a b = true <-> a = b.
Proof.
  revert b. induction a as [ | x a IH]; intros [ | y b]; cbn;
    try (split; [ discriminate | discriminate ]); try tauto.
  rewrite andb_true_iff, N.eqb_eq, IH. split.
  - intros [-> ->]. reflexivity.
  - intros E. injection E as -> ->. auto.
Qed.

Lemma eqb_neq (a b : str) : eqb a b = false <-> a <> b.
Proof.
  rewrite <- eqb_eq. destruct (eqb a b); split; congruence.
Qed.

Lemma startswith_spec (p s : str) :
  startswith p s = true <-> exists post, s = p ++ post.
Proof.
  revert s. induction p as [ | x p IH]; intros s; cbn.
  - split; [ intros _; exists s; reflexivity | reflexivity ].
  - destruct s as [ | y s].
    + split; [ discriminate | intros [post E]; discriminate ].
    + rewrite andb_true_iff, N.eqb_eq, IH. split.
      * intros [-> [post ->]]. exists post. reflexivity.
      * intros [post E]. injection E as -> ->. eauto.
Qed.

(** [p in s] holds exactly when [p] occurs somewhere inside [s]. *)
Lemma contains_spec (p s : str) :
  contains p s = true <-> exists pre post, s = pre ++ p ++ post.
Proof.
  induction s as [ | c s IH].
  - cbn [contains]. rewrite orb_false_r, startswith_spec. split.
    + intros [post E]. exists [], post. exact E.
    + intros [pre [post E]]. destruct pre; [ eauto | discriminate ].
  - cbn [contains]. rewrite orb_true_iff, startswith_spec, IH. split.
    + intros [[post E] | [pre [post E]]].
      * exists [], post. exact E.
      * exists (c :: pre), post. cbn. now rewrite E.
    + intros [[ | x pre] [post E]].
      * left. exists post. exact E.
      * right. injection E as -> ->. eauto.
Qed.

Lemma lstrip_nil (s : str) : lstrip s = [] <-> forallb isspace s = true.
Proof.
  induction s as [ | c s IH]; cbn; [ tauto | ].
  destruct (isspace c); cbn; [ exact IH | ].
  split; discriminate.
Qed.

Lemma lstrip_head (s r : str) (c : N) :
  lstrip s = c :: r -> isspace c = false.
Proof.
  induction s as [ | x s IH]; cbn; [ discriminate | ].
  destruct (isspace x) eqn:E; [ exact IH | ].
  intros H. injection H as -> _. exact E.
Qed.

Lemma forallb_rev (f : N -> bool) (s : str) :
  forallb f (rev s) = forallb f s.
Proof.
  induction s as [ | c s IH]; cbn; [ reflexivity | ].
  rewrite forallb_app, IH. cbn. rewrite andb_true_r. apply andb_comm.
Qed.

(** [not text.strip()] holds exactly for the empty text and the texts
    made of white space only. *)
Lemma strip_nil (s : str) : strip s = [] <-> forallb isspace s = true.
Proof.
  unfold strip, rstrip. split.
  - intros H. apply (f_equal (@rev N)) in H. rewrite rev_involutive in H.
    cbn in H. apply lstrip_nil in H. rewrite forallb_rev in H.
    destruct (lstrip s) as [ | c r] eqn:E.
    + now apply lstrip_nil.
    + apply lstrip_head in E. cbn in H. rewrite E in H. discriminate.
  - intros H. apply lstrip_nil in H. rewrite H. reflexivity.
Qed.

(** What [strip] leaves is empty or ends in a character that is not
    white space. *)
Lemma strip_last (s : str) :
  strip s = [] \/ exists r c, strip s = r ++ [c] /\ isspace c = false.
Proof.
  unfold strip, rstrip.
  destruct (lstrip (rev (lstrip s))) as [ | c t] eqn:E.
  - left. reflexivity.
  - right. exists (rev t), c. split; [ reflexivity | ].
    eapply lstrip_head. exact E.
Qed.

Lemma ascii_lower_not_line_feed (c : N) :
  isspace c = false -> ascii_lower c <> 10%N.
Proof.
  intros NS. unfold ascii_lower.
  destruct (N.leb_spec 65 c); destruct (N.leb_spec c 90); cbn [andb];
    try lia; intros ->; discriminate NS.
Qed.

Lemma ascii_lower_az (c : N) :
  ((97 <=? c) && (c <=? 122))%N = true -> ascii_lower c = c.
Proof.
  rewrite andb_true_iff, !N.leb_le. intros [L U]. unfold ascii_lower.
  destruct (N.leb_spec 65 c); destruct (N.leb_spec c 90); cbn [andb];
    try reflexivity; lia.
Qed.

Section LowerFacts.
Variable nonascii_lower : str -> N -> str -> str.

Lemma lower_from_ascii (s before : str) :
  forallb (fun c => (c <? 128)%N) s = true ->
  lower_from nonascii_lower before s = map ascii_lower s.
Proof.
  revert before. induction s as [ | c s IH]; intros before; cbn;
    [ reflexivity | ].
  rewrite andb_true_iff. intros [-> H]. cbn. now rewrite IH.
Qed.

(** On a text of ASCII characters [lower] is the ASCII mapping,
    character by character. *)
Lemma lower_ascii (s : str) :
  forallb (fun c => (c <? 128)%N) s = true ->
  lower nonascii_lower s = map ascii_lower s.
Proof. apply lower_from_ascii. Qed.

(** The two facts about the Unicode tables that the shape of a
    lower-cased answer depends on: a code point outside ASCII is never
    mapped to nothing, and never to a line feed. *)
Hypothesis nonascii_lower_nonempty :
  forall before c after,
    (128 <= c)%N -> nonascii_lower before c after <> [].
Hypothesis nonascii_lower_no_line_feed :
  forall before c after,
    (128 <= c)%N -> ~ In 10%N (nonascii_lower before c after).

(** A text that ends in a character other than white space does not
    end in a line feed once lower-cased. *)
Lemma lower_from_last (r : str) (c : N) :
  isspace c = false ->
  forall before,
  exists r' x,
    lower_from nonascii_lower before (r ++ [c]) = r' ++ [x] /\ x <> 10%N.
Proof.
  intros NS. induction r as [ | y r IH]; intros before.
  - cbn [app lower_from]. rewrite app_nil_r.
    destruct (N.ltb_spec c 128) as [A | A].
    + exists [], (ascii_lower c). split; [ reflexivity | ].
      now apply ascii_lower_not_line_feed.
    + destruct (exists_last (nonascii_lower_nonempty before c [] A))
        as [r' [x E]].
      exists r', x. split; [ exact E | ].
      intros ->. apply (nonascii_lower_no_line_feed before c [] A).
      rewrite E. apply in_or_app. right. left. reflexivity.
  - destruct (IH (before ++ [y])) as [r' [x [E NL]]].
    cbn [app lower_from]. rewrite E.
    eexists (_ ++ r'), x. rewrite app_assoc. split; [ reflexivity | exact NL ].
Qed.

Lemma lower_strip_not_line_feed_terminated (s pre : str) :
  lower nonascii_lower (strip s) <> pre ++ [10%N].
Proof.
  destruct (strip_last s) as [E | [r [c [E NS]]]]; rewrite E.
  - cbn. destruct pre; discriminate.
  - destruct (lower_from_last r c NS []) as [r' [x [L NL]]].
    unfold lower. rewrite L. intros H.
    apply app_inj_tail in H. destruct H as [_ H]. contradiction.
Qed.
End LowerFacts.

End PyStrFacts.

(** ** The detectors and the orchestrator *)

Lemma unsupported_true_iff (code : str) :
  unsupported code = true
  <-> ~ (code = en \/ code = es \/ code = UNKNOWN_LANG_CODE).
Proof.
  unfold unsupported, mem, SUPPORTED_LANGS. cbn [existsb].
  rewrite orb_false_r, andb_true_iff, !negb_true_iff, orb_false_iff.
  rewrite !PyStrFacts.eqb_neq. tauto.
Qed.

Lemma unsupported_false_iff (code : str) :
  unsupported code = false
  <-> code = en \/ code = es \/ code = UNKNOWN_LANG_CODE.
Proof.
  destruct (unsupported code) eqn:U.
  - apply unsupported_true_iff in U. split; [ discriminate | tauto ].
  - split; [ intros _ | reflexivity ].
    unfold unsupported, mem, SUPPORTED_LANGS in U. cbn [existsb] in U.
    rewrite orb_false_r, andb_false_iff, !negb_false_iff, orb_true_iff in U.
    rewrite !PyStrFacts.eqb_eq in U. tauto.
Qed.

Lemma ascii_count_le (text : str) :
  (ascii_count text <= List.length text)%nat.
Proof. apply filter_length_le. Qed.

Lemma ascii_count_le_total (text : str) :
  (ascii_count text <= total_count text)%nat.
Proof.
  pose proof (ascii_count_le text). destruct text; cbn in *; lia.
Qed.

(** The markers are ASCII and already in lower case. *)
Lemma english_marker_is_lower_ascii (marker : str) :
  In marker english_markers ->
  forallb (fun c => (c <? 128)%N) marker = true
  /\ map ascii_lower marker = marker.
Proof.
  intros H. cbn in H.
  repeat (destruct H as [<- | H]; [ split; reflexivity | ]).
  destruct H.
Qed.

(** What the pattern accepts: the two-letter codes, and texts that end
    in a line feed. *)
Lemma ISO_639_1_PATTERN_match_shape (s : str) :
  ISO_639_1_PATTERN_match s = true ->
  is_two_letter_code s = true \/ exists pre, s = pre ++ [10%N].
Proof.
  destruct s as [ | a [ | b [ | c [ | d s]]]]; cbn; try discriminate.
  - intros H. left. exact H.
  - rewrite andb_true_iff, N.eqb_eq. intros [_ ->].
    right. exists [a; b]. reflexivity.
Qed.

(** The same, with the text before the line feed made explicit. *)
Lemma ISO_639_1_PATTERN_match_cases (s : str) :
  ISO_639_1_PATTERN_match s = true ->
  is_two_letter_code s = true
  \/ exists code, is_two_letter_code code = true /\ s = code ++ [10%N].
Proof.
  destruct s as [ | a [ | b [ | c [ | d s]]]]; cbn; try discriminate.
  - intros H. left. exact H.
  - rewrite andb_true_iff, N.eqb_eq. intros [H ->].
    right. exists [a; b]. split; [ exact H | reflexivity ].
Qed.

Lemma is_az_ascii (c : N) : is_az c = true -> (c <? 128)%N = true.
Proof.
  unfold is_az. rewrite andb_true_iff, !N.leb_le, N.ltb_lt. lia.
Qed.

Section ServiceFacts.

Variable nonascii_lower : str -> N -> str -> str.
Variable detect : str -> result str.
Variable acomplete : str -> result str.
Variable translate : str -> result str.
Variable SHORT_INPUT_WORD_THRESHOLD : Z.

Local Notation "'detect_statistical'" :=
  (_detect_language_statistical nonascii_lower detect).
Local Notation "'detect_llm'" :=
  (_detect_language_llm nonascii_lower acomplete).
Local Notation "'detect_tier'" :=
  (tier_detection nonascii_lower detect acomplete
     SHORT_INPUT_WORD_THRESHOLD).
Local Notation "'detect_language'" :=
  (_detect_language nonascii_lower detect acomplete
     SHORT_INPUT_WORD_THRESHOLD).
Local Notation "'translate_service'" :=
  (translate_text nonascii_lower detect acomplete translate
     SHORT_INPUT_WORD_THRESHOLD).
Local Notation "'has_marker'" := (has_english_marker nonascii_lower).
Local Notation "'code_of_tier'" :=
  (tier_code nonascii_lower detect acomplete SHORT_INPUT_WORD_THRESHOLD).
Local Notation "'trace_of_tier'" :=
  (tier_trace SHORT_INPUT_WORD_THRESHOLD).
Local Notation "'passed_by_tier'" :=
  (tier_passes_through detect acomplete SHORT_INPUT_WORD_THRESHOLD).

Lemma statistical_run (text : str) :
  detect_statistical text
  = ([Enter_detect_language_statistical; Call_detect text],
     finish (passes_through (detect text))
       (statistical_code nonascii_lower detect text)).
Proof.
  unfold _detect_language_statistical, statistical_code.
  destruct (detect text) as [raw | e]; cbn.
  - destruct (ISO_639_1_PATTERN_match raw); reflexivity.
  - destruct (is_Exception e); [ | reflexivity ].
    destruct (is_LangDetectException e); reflexivity.
Qed.

Lemma llm_run (text : str) :
  detect_llm text
  = ([Enter_detect_language_llm;
      Call_acomplete (LANG_DETECT_PROMPT_format (detection_text text))],
     finish
       (passes_through
          (acomplete (LANG_DETECT_PROMPT_format (detection_text text))))
       (llm_code nonascii_lower acomplete text)).
Proof.
  unfold _detect_language_llm, llm_code, detection_text.
  destruct (acomplete _) as [raw | e]; cbn.
  - destruct (eqb _ _ || _); reflexivity.
  - destruct (is_Exception e); reflexivity.
Qed.

Lemma tier_run (text : str) :
  detect_tier text
  = (trace_of_tier text,
     finish (passed_by_tier text) (code_of_tier text)).
Proof.
  unfold tier_detection, tier_trace, tier_code, tier_passes_through,
    word_count.
  destruct (_ <=? _)%Z; [ apply llm_run | apply statistical_run ].
Qed.

Lemma detect_language_run (text : str) :
  detect_language text
  = if has_marker text then ([Enter_detect_language], Return en)
    else (Enter_detect_language :: trace_of_tier text,
          finish (passed_by_tier text)
            (ascii_override text (code_of_tier text))).
Proof.
  unfold _detect_language. destruct (has_marker text); [ reflexivity | ].
  rewrite tier_run. unfold ascii_override.
  destruct (passed_by_tier text) as [e | ]; [ reflexivity | ].
  cbn -[Float.gt Float.int_true_divide unsupported].
  destruct (unsupported _); cbn -[Float.gt Float.int_true_divide];
    [ | now rewrite app_nil_r ].
  destruct (Float.gt _ _); cbn; now rewrite app_nil_r.
Qed.

Lemma passes_through_some (answer : result str) (e : exn) :
  passes_through answer = Some e ->
  answer = Raise e /\ is_Exception e = false.
Proof.
  destruct answer as [a | e']; cbn; [ discriminate | ].
  destruct (is_Exception e') eqn:E; [ discriminate | ].
  intros H. injection H as <-. split; [ reflexivity | exact E ].
Qed.

(** The orchestrated detection ends in a code, or in an exception that
    is not an instance of [Exception] and was raised by the classifier
    or by the completion client. *)
Lemma detect_language_raise_origin (text : str) (e : exn) :
  outcome (detect_language text) = Raise e ->
  is_Exception e = false
  /\ (detect text = Raise e
      \/ acomplete (LANG_DETECT_PROMPT_format (detection_text text))
         = Raise e).
Proof.
  rewrite detect_language_run.
  destruct (has_marker text); cbn [outcome snd]; [ discriminate | ].
  unfold tier_passes_through.
  destruct (_ <=? _)%Z;
    [ destruct (passes_through (acomplete _)) as [e' | ] eqn:P
    | destruct (passes_through (detect text)) as [e' | ] eqn:P ];
    cbn [finish]; try discriminate;
    intros H; injection H as <-; apply passes_through_some in P;
    destruct P as [P E]; (split; [ exact E | ]); [ right | left ]; exact P.
Qed.

(** Without such an exception the detection returns a code. *)
Lemma detect_language_returns (text : str) :
  (forall e, detect text = Raise e -> is_Exception e = true) ->
  (forall e,
      acomplete (LANG_DETECT_PROMPT_format (detection_text text)) = Raise e ->
      is_Exception e = true) ->
  exists code, outcome (detect_language text) = Return code.
Proof.
  intros Hd Ha.
  destruct (outcome (detect_language text)) as [code | e] eqn:O;
    [ exists code; reflexivity | ].
  apply detect_language_raise_origin in O. destruct O as [E [O | O]].
  - apply Hd in O. congruence.
  - apply Ha in O. congruence.
Qed.

Lemma has_english_marker_spec (text : str) :
  has_marker text = true <-> contains_english_marker nonascii_lower text.
Proof.
  unfold has_english_marker, contains_english_marker.
  rewrite existsb_exists.
  split; intros [m [I H]]; exists m; (split; [ exact I | ]);
    now apply PyStrFacts.contains_spec.
Qed.

Lemma tier_trace_has_no_translate (text : str) :
  filter is_translate_call (trace_of_tier text) = [].
Proof. unfold tier_trace. destruct (_ <=? _)%Z; reflexivity. Qed.

Lemma detect_language_has_no_translate (text : str) :
  filter is_translate_call (trace (detect_language text)) = [].
Proof.
  rewrite detect_language_run. destruct (has_marker text); cbn;
    [ reflexivity | apply tier_trace_has_no_translate ].
Qed.

(** [translate_text] past the guard on blank input. *)
Lemma translate_text_run (text : str) :
  strip text <> [] ->
  translate_service text
  = let (tr, r) := detect_language text in
    match r with
    | Raise e =>
        (tr, Raise (if is_Exception e
                    then AppError DETECTION_SETUP_ERROR (Some e) else e))
    | Return code =>
        if unsupported code then (tr, Return (UNSUPPORTED_MESSAGE code))
        else (tr ++ [Call_translate text],
              match translate text with
              | Return translated => Return translated
              | Raise e =>
                  Raise (if is_Exception e
                         then if is_TranslationError e then e
                              else AppError TRANSLATION_PROCESS_ERROR (Some e)
                         else e)
              end)
    end.
Proof.
  intros NB. unfold translate_text.
  destruct (strip text) as [ | c rest]; [ contradiction | ].
  destruct (detect_language text) as [tr [code | e]]; cbn.
  - destruct (unsupported code); cbn; [ now rewrite app_nil_r | ].
    destruct (translate text) as [translated | e]; cbn;
      [ reflexivity | ].
    destruct (is_Exception e); cbn; [ | reflexivity ].
    destruct (is_TranslationError e); cbn; rewrite ?app_nil_r; reflexivity.
  - destruct (is_Exception e); cbn; rewrite ?app_nil_r; reflexivity.
Qed.

Lemma no_english_marker (text : str) :
  ~ contains_english_marker nonascii_lower text ->
  has_marker text = false.
Proof.
  intros H. destruct (has_marker text) eqn:E; [ | reflexivity ].
  apply has_english_marker_spec in E. contradiction.
Qed.

Lemma strip_blank (text : str) : strip text = [] <-> blank text.
Proof.
  rewrite PyStrFacts.strip_nil. unfold blank.
  rewrite forallb_forall, Forall_forall. tauto.
Qed.

(** *** The shape of a detection result *)

Lemma two_letter_code_lower (s : str) :
  is_two_letter_code s = true -> lower nonascii_lower s = s.
Proof.
  destruct s as [ | a [ | b [ | c s]]]; cbn [is_two_letter_code];
    try discriminate.
  rewrite andb_true_iff. intros [A B]. unfold lower. cbn [lower_from].
  rewrite (is_az_ascii a A), (is_az_ascii b B).
  rewrite (PyStrFacts.ascii_lower_az a A), (PyStrFacts.ascii_lower_az b B).
  reflexivity.
Qed.

(** The statistical detector keeps the invariant as long as the answer
    of the classifier does not end in a line feed. *)
Lemma statistical_code_shape (text : str) :
  (forall raw pre, detect text = Return raw -> raw <> pre ++ [10%N]) ->
  is_detection_result (statistical_code nonascii_lower detect text).
Proof.
  intros NL. unfold statistical_code.
  destruct (detect text) as [raw | e]; [ | right; reflexivity ].
  destruct (ISO_639_1_PATTERN_match raw) eqn:Mt; [ | right; reflexivity ].
  apply ISO_639_1_PATTERN_match_shape in Mt. destruct Mt as [T | [pre E]].
  - left. now rewrite two_letter_code_lower.
  - exfalso. exact (NL raw pre eq_refl E).
Qed.

(** The LLM detector keeps the invariant for every answer of the
    completion client: the answer is trimmed before it is validated. *)
Lemma llm_code_shape (text : str) :
  (forall before c after,
      (128 <= c)%N -> nonascii_lower before c after <> []) ->
  (forall before c after,
      (128 <= c)%N -> ~ In 10%N (nonascii_lower before c after)) ->
  is_detection_result (llm_code nonascii_lower acomplete text).
Proof.
  intros NE NL. unfold llm_code.
  destruct (acomplete _) as [raw | e]; [ | right; reflexivity ].
  cbv zeta.
  destruct (eqb _ UNKNOWN_LANG_CODE) eqn:U; cbn [orb].
  - right. now apply PyStrFacts.eqb_eq.
  - destruct (ISO_639_1_PATTERN_match _) eqn:Mt; [ | right; reflexivity ].
    apply ISO_639_1_PATTERN_match_shape in Mt. destruct Mt as [T | [pre E]].
    + left. exact T.
    + exfalso.
      exact (PyStrFacts.lower_strip_not_line_feed_terminated
               nonascii_lower NE NL raw pre E).
Qed.

(** Apart from an answer of the classifier that ends in a line feed,
    [_detect_language] returns a two-letter lower-case code or the
    unknown sentinel. *)
Lemma detect_language_shape (text : str) :
  (forall before c after,
      (128 <= c)%N -> nonascii_lower before c after <> []) ->
  (forall before c after,
      (128 <= c)%N -> ~ In 10%N (nonascii_lower before c after)) ->
  (forall raw pre, detect text = Return raw -> raw <> pre ++ [10%N]) ->
  forall code,
    outcome (detect_language text) = Return code ->
    is_detection_result code.
Proof.
  intros NE NL ND code. rewrite detect_language_run.
  destruct (has_marker text); cbn [outcome snd].
  - intros H. injection H as <-. left. reflexivity.
  - destruct (passed_by_tier text); cbn [finish]; [ discriminate | ].
    intros H. injection H as <-.
    unfold ascii_override. destruct (_ && _); [ left; reflexivity | ].
    unfold tier_code. destruct (_ <=? _)%Z.
    + now apply llm_code_shape.
    + now apply statistical_code_shape.
Qed.

(** C2: a text whose lower-cased form contains one of the English
    markers is detected as "en" at once: the only step recorded is the
    entry into [_detect_language], neither detector is entered and
    neither the classifier nor the completion client is called,
    whatever they would have answered. *)
Theorem english_marker_preempts_detectors (text : str) :
  contains_english_marker nonascii_lower text ->
  detect_language text = ([Enter_detect_language], Return en).
Proof.
  intros H. apply has_english_marker_spec in H.
  rewrite detect_language_run, H. reflexivity.
Qed.

(** C3: without an English marker, a text of at most
    [SHORT_INPUT_WORD_THRESHOLD] words enters the LLM detector once
    (one call of the completion client) and the statistical detector
    never; a text of more words enters the statistical detector once
    (one call of the classifier) and the LLM detector never. *)
Theorem tier_invokes_one_detector (text : str) :
  ~ contains_english_marker nonascii_lower text ->
  let tr := trace (detect_language text) in
  ((word_count text <= SHORT_INPUT_WORD_THRESHOLD)%Z ->
   count is_llm_entry tr = 1 /\ count is_acomplete_call tr = 1 /\
   count is_statistical_entry tr = 0 /\ count is_detect_call tr = 0) /\
  ((SHORT_INPUT_WORD_THRESHOLD < word_count text)%Z ->
   count is_statistical_entry tr = 1 /\ count is_detect_call tr = 1 /\
   count is_llm_entry tr = 0 /\ count is_acomplete_call tr = 0).
Proof.
  intros NM. apply no_english_marker in NM.
  rewrite detect_language_run, NM. unfold tier_trace. cbn [trace fst].
  split; intros H.
  - apply Z.leb_le in H. rewrite H. repeat split; reflexivity.
  - apply Z.leb_gt in H. rewrite H. repeat split; reflexivity.
Qed.

(** C6: an empty or white-space-only text is answered with the fixed
    prompt and an empty trace: [_detect_language], the two detectors
    and the translator are not reached. *)
Theorem blank_text_short_circuits (text : str) :
  blank text ->
  translate_service text = ([], Return EMPTY_TEXT_MESSAGE).
Proof.
  intros B. apply strip_blank in B. unfold translate_text.
  rewrite B. reflexivity.
Qed.

Lemma detection_text_slice (text : str) :
  detection_text (slice_to 100 text) = detection_text text.
Proof.
  unfold detection_text, slice_to.
  destruct (Nat.ltb_spec 100 (List.length text)) as [L | L].
  - rewrite length_firstn.
    destruct (Nat.ltb_spec 100 (Nat.min 100 (List.length text))); [ lia | ].
    reflexivity.
  - rewrite firstn_all2 by lia.
    destruct (Nat.ltb_spec 100 (List.length text)); [ lia | reflexivity ].
Qed.

(** C9: the LLM detector sends one prompt, built from [text[:100]]
    when the text has more than 100 characters and from the whole
    text otherwise; run on [text] and on [text[:100]] it makes the
    same call and returns the same code. *)
Theorem llm_detector_reads_first_100 (text : str) :
  filter is_acomplete_call (trace (detect_llm text))
  = [Call_acomplete
       (LANG_DETECT_PROMPT_format
          (if 100 <? List.length text then slice_to 100 text else text))]
  /\ detect_llm text = detect_llm (slice_to 100 text).
Proof.
  split.
  - rewrite llm_run. reflexivity.
  - rewrite !llm_run. unfold llm_code.
    rewrite detection_text_slice. reflexivity.
Qed.

(** C5 (amended): neither sub-detector lets an instance of [Exception]
    out: when a detector ends in an exception, the classifier or the
    completion client raised it and it is not an instance of
    [Exception]; such an exception passes through unchanged, every
    other one gives the unknown sentinel.  An answer of the classifier
    that is neither a two-letter lower-case code nor such a code
    followed by a line feed gives the unknown sentinel; so does an
    answer of the
    completion client that, trimmed and lower-cased, is neither the
    unknown sentinel nor a two-letter lower-case code (the lower-case
    tables mapping no code point outside ASCII to nothing or to a line
    feed). *)
Theorem sub_detectors_absorb_exceptions (text : str) :
  (forall e,
      outcome (detect_statistical text) = Raise e ->
      is_Exception e = false /\ detect text = Raise e) /\
  (forall e,
      outcome (detect_llm text) = Raise e ->
      is_Exception e = false
      /\ acomplete (LANG_DETECT_PROMPT_format (detection_text text))
         = Raise e) /\
  (forall raw,
      detect text = Return raw ->
      is_two_letter_code raw = false ->
      ~ (exists code,
            is_two_letter_code code = true /\ raw = code ++ [10%N]) ->
      outcome (detect_statistical text) = Return UNKNOWN_LANG_CODE) /\
  ((forall before c after,
       (128 <= c)%N -> nonascii_lower before c after <> []) ->
   (forall before c after,
       (128 <= c)%N -> ~ In 10%N (nonascii_lower before c after)) ->
   forall raw,
     acomplete (LANG_DETECT_PROMPT_format (detection_text text))
     = Return raw ->
     lower nonascii_lower (strip raw) <> UNKNOWN_LANG_CODE ->
     is_two_letter_code (lower nonascii_lower (strip raw)) = false ->
     outcome (detect_llm text) = Return UNKNOWN_LANG_CODE) /\
  (forall e,
      detect text = Raise e ->
      (is_Exception e = true ->
       outcome (detect_statistical text) = Return UNKNOWN_LANG_CODE)
      /\ (is_Exception e = false ->
          outcome (detect_statistical text) = Raise e)) /\
  (forall e,
      acomplete (LANG_DETECT_PROMPT_format (detection_text text))
      = Raise e ->
      (is_Exception e = true ->
       outcome (detect_llm text) = Return UNKNOWN_LANG_CODE)
      /\ (is_Exception e = false -> outcome (detect_llm text) = Raise e)).
Proof.
  rewrite statistical_run, llm_run. cbn [outcome snd].
  unfold statistical_code, llm_code.
  split; [ | split; [ | split; [ | split; [ | split ] ] ] ].
  - intros e. destruct (passes_through (detect text)) as [e' | ] eqn:P;
      cbn [finish]; [ | discriminate ].
    intros H. injection H as <-. apply passes_through_some in P.
    destruct P as [P E]. split; [ exact E | exact P ].
  - intros e. destruct (passes_through (acomplete _)) as [e' | ] eqn:P;
      cbn [finish]; [ | discriminate ].
    intros H. injection H as <-. apply passes_through_some in P.
    destruct P as [P E]. split; [ exact E | exact P ].
  - intros raw -> NT NL. cbn [passes_through finish].
    destruct (ISO_639_1_PATTERN_match raw) eqn:Mt; [ | reflexivity ].
    apply ISO_639_1_PATTERN_match_cases in Mt.
    destruct Mt as [T | E]; [ congruence | contradiction ].
  - intros NE NLF raw -> NU NT. cbn [passes_through finish]. cbv zeta.
    apply PyStrFacts.eqb_neq in NU. rewrite NU. cbn [orb].
    destruct (ISO_639_1_PATTERN_match _) eqn:Mt; [ | reflexivity ].
    apply ISO_639_1_PATTERN_match_shape in Mt.
    destruct Mt as [T | [pre E]]; [ congruence | ].
    exfalso.
    exact (PyStrFacts.lower_strip_not_line_feed_terminated
             nonascii_lower NE NLF raw pre E).
  - intros e ->. cbn [passes_through].
    split; intros ->; reflexivity.
  - intros e ->. cbn [passes_through].
    split; intros ->; reflexivity.
Qed.

(** C7 (amended): when the translator is called by [translate_text]
    and raises, a [TranslationError] leaves [translate_text] as the
    very same exception; any other instance of [Exception] leaves it
    wrapped as the cause of an [AppError] with the fixed message; an
    exception that is not an instance of [Exception] leaves it
    unchanged. *)
Theorem translator_errors_normalised (text : str) (e : exn) :
  In (Call_translate text) (trace (translate_service text)) ->
  translate text = Raise e ->
  (is_TranslationError e = true ->
   outcome (translate_service text) = Raise e) /\
  (is_Exception e = true -> is_TranslationError e = false ->
   outcome (translate_service text)
   = Raise (AppError TRANSLATION_PROCESS_ERROR (Some e))) /\
  (is_Exception e = false ->
   outcome (translate_service text) = Raise e).
Proof.
  intros Called Fails.
  destruct (strip text) as [ | c rest] eqn:S.
  - unfold translate_text in Called. rewrite S in Called.
    destruct Called.
  - assert (NB : strip text <> []) by (rewrite S; discriminate).
    pose proof (detect_language_has_no_translate text) as NT.
    rewrite (@translate_text_run text NB) in *.
    assert (NI : ~ In (Call_translate text) (trace (detect_language text))).
    { intros I.
      assert (F : In (Call_translate text)
                     (filter is_translate_call
                        (trace (detect_language text))))
        by (apply filter_In; split; [ exact I | reflexivity ]).
      rewrite NT in F. destruct F. }
    destruct (detect_language text) as [tr [code | e']];
      cbn [trace fst] in NI.
    + destruct (unsupported code).
      * exfalso. exact (NI Called).
      * cbn [outcome snd]. rewrite Fails.
        split; [ | split ].
        -- intros T. destruct e; try discriminate T. reflexivity.
        -- intros -> ->. reflexivity.
        -- intros ->. reflexivity.
    + exfalso. exact (NI Called).
Qed.

(** C1 (amended): for every text that is neither empty nor white
    space only, when [_detect_language] returns "en", "es" or the
    unknown sentinel the translator is called, once and with the text;
    for any other code the translator is not called and the answer is
    the fixed notice ending in the code.  The only runs in which
    [_detect_language] returns no code are those where the classifier
    or the completion client raises an exception that is not an
    instance of [Exception]: it leaves [translate_text] unchanged, with
    no call of the translator. *)
Theorem translate_text_routes_by_code (text : str) :
  ~ blank text ->
  routes_by_detected_code nonascii_lower detect acomplete translate
    SHORT_INPUT_WORD_THRESHOLD text
  /\ (forall e,
        outcome (detect_language text) = Raise e ->
        is_Exception e = false
        /\ (detect text = Raise e
            \/ acomplete (LANG_DETECT_PROMPT_format (detection_text text))
               = Raise e)
        /\ translate_service text
           = (trace (detect_language text), Raise e)).
Proof.
  intros NB. rewrite <- strip_blank in NB.
  pose proof (detect_language_has_no_translate text) as NT.
  pose proof (detect_language_raise_origin text) as RO.
  unfold routes_by_detected_code.
  rewrite (@translate_text_run text NB).
  destruct (detect_language text) as [tr r].
  cbn [outcome snd trace fst] in *. split.
  - intros code ->. split; intros H.
    + apply unsupported_false_iff in H. rewrite H. cbn [trace fst].
      rewrite filter_app, NT. reflexivity.
    + apply unsupported_true_iff in H. rewrite H.
      cbn [trace fst outcome snd]. split; [ reflexivity | exact NT ].
  - intros e ->. destruct (RO e eq_refl) as [E O].
    rewrite E. repeat split; assumption.
Qed.

(** C4: let the detector chosen by the word count answer a code other
    than "en", "es" and the unknown sentinel.  When more than nine
    tenths of the characters of the text have a code point below 128,
    [_detect_language] returns "en" (for a text of at most [2 ^ 50]
    characters, where the binary64 quotient of the source decides as
    the exact fraction does); when at most nine tenths have, it returns
    the code unchanged. *)
Theorem ascii_ratio_override (text code : str) :
  ~ contains_english_marker nonascii_lower text ->
  outcome (detect_tier text) = Return code ->
  ~ (code = en \/ code = es \/ code = UNKNOWN_LANG_CODE) ->
  ((Z.of_nat (List.length text) <= 2 ^ 50)%Z ->
   9 * List.length text < 10 * ascii_count text ->
   outcome (detect_language text) = Return en) /\
  (10 * ascii_count text <= 9 * List.length text ->
   outcome (detect_language text) = Return code).
Proof.
  intros NM Tier Unsup. apply no_english_marker in NM.
  apply unsupported_true_iff in Unsup.
  rewrite tier_run in Tier. cbn [outcome snd] in Tier.
  destruct (passed_by_tier text) as [e | ] eqn:Pt; cbn [finish] in Tier;
    [ discriminate Tier | ].
  injection Tier as Tier.
  rewrite detect_language_run, NM, Pt. cbn [outcome snd finish].
  unfold ascii_override. rewrite Tier, Unsup. cbn [andb].
  pose proof (ascii_count_le_total text) as Le.
  assert (P : (0 < Z.of_nat (total_count text))%Z)
    by (destruct text; cbn; lia).
  split.
  - intros Len H.
    assert (T : (Z.of_nat (total_count text) <= 2 ^ 50)%Z).
    { destruct text; [ cbn; lia | exact Len ]. }
    rewrite FloatFacts.gt_0_9_exact;
      [ | lia | exact P
        | change (2 ^ 54)%Z with (2 ^ 50 * 16)%Z; lia ].
    destruct (Z.ltb_spec (9 * Z.of_nat (total_count text))
                         (10 * Z.of_nat (ascii_count text))) as [C | C];
      [ reflexivity | ].
    exfalso. destruct text; cbn [total_count List.length] in *; lia.
  - intros H.
    destruct (Float.gt _ Float.f0_9) eqn:G; [ | reflexivity ].
    exfalso. apply FloatFacts.gt_0_9_sound in G; [ | lia | exact P ].
    destruct text; cbn [total_count List.length] in *; lia.
Qed.

(** C10: the marker test is containment, with no condition on what
    stands next to the marker.  Any text whose lower-cased form is
    [pre ++ marker ++ post] is detected as "en" with no detector
    consulted; so is any ASCII text with a marker anywhere inside it,
    and so is "mi amor", whose words "mi" and "amor" together contain
    the marker "i am". *)
Theorem english_marker_ignores_word_boundaries :
  (forall text pre marker post,
      In marker english_markers ->
      lower nonascii_lower text = pre ++ marker ++ post ->
      detect_language text = ([Enter_detect_language], Return en)) /\
  (forall pre marker post,
      In marker english_markers ->
      forallb (fun c => (c <? 128)%N) (pre ++ post) = true ->
      detect_language (pre ++ marker ++ post)
      = ([Enter_detect_language], Return en)) /\
  (split (lit "mi amor") = [lit "mi"; lit "amor"] /\
   lit "mi amor" = lit "m" ++ lit "i am" ++ lit "or" /\
   detect_language (lit "mi amor") = ([Enter_detect_language], Return en)).
Proof.
  assert (G : forall text pre marker post,
             In marker english_markers ->
             lower nonascii_lower text = pre ++ marker ++ post ->
             detect_language text = ([Enter_detect_language], Return en)).
  { intros text pre marker post I E.
    assert (H : has_marker text = true).
    { apply has_english_marker_spec. exists marker. eauto. }
    rewrite detect_language_run, H. reflexivity. }
  split; [ exact G | split; [ | split; [ | split ] ] ].
  - intros pre marker post I A.
    destruct (english_marker_is_lower_ascii marker I) as [Am Lm].
    rewrite forallb_app, andb_true_iff in A. destruct A as [Apre Apost].
    apply (G _ (map ascii_lower pre) marker (map ascii_lower post) I).
    rewrite PyStrFacts.lower_ascii.
    + rewrite !map_app, Lm. reflexivity.
    + rewrite !forallb_app, Apre, Am, Apost. reflexivity.
  - reflexivity.
  - reflexivity.
  - apply (G _ (lit "m") (lit "i am") (lit "or")).
    + do 5 right. left. reflexivity.
    + reflexivity.
Qed.

End ServiceFacts.

(** ** The claims at concrete inputs *)

(** The premises of [detect_language_shape] hold for the plain table
    and a classifier that answers "pt". *)
Example detect_language_shape_example :
  exists code,
    outcome (_detect_language plain_lower (always (lit "pt"))
               (always (lit "pt")) 3 (lit "tudo bem com a gente"))
    = Return code
    /\ is_detection_result code.
Proof.
  exists en. split; [ reflexivity | ].
  apply (detect_language_shape plain_lower (always (lit "pt"))
           (always (lit "pt")) 3 (lit "tudo bem com a gente")).
  - intros before c after _. discriminate.
  - intros before c after A [H | []]. lia.
  - intros raw pre H. vm_compute in H. injection H as <-.
    destruct pre as [ | a [ | b [ | c pre]]]; discriminate.
  - reflexivity.
Qed.

Lemma english_marker_preempts_detectors_witness :
  _detect_language plain_lower (always (lit "fr")) (always (lit "fr")) 3
    (lit "Well, LET'S go")
  = ([Enter_detect_language], Return en).
Proof.
  apply english_marker_preempts_detectors.
  exists (lit "let's"). split; [ left; reflexivity | ].
  exists (lit "well, "), (lit " go"). reflexivity.
Defined.

Lemma tier_invokes_one_detector_witness :
  let tr :=
    trace (_detect_language plain_lower (always (lit "es"))
             (always (lit "es")) 3 (lit "che boludo")) in
  count is_llm_entry tr = 1 /\ count is_statistical_entry tr = 0.
Proof.
  assert (NM : ~ contains_english_marker plain_lower (lit "che boludo")).
  { intros H.
    apply (has_english_marker_spec plain_lower (lit "che boludo")) in H.
    vm_compute in H. discriminate H. }
  pose proof (tier_invokes_one_detector plain_lower (always (lit "es"))
                (always (lit "es")) 3 (lit "che boludo") NM) as [Short _].
  cbv zeta in Short. cbv zeta.
  destruct Short as [L [_ [S _]]]; [ vm_compute; discriminate | ].
  split; [ exact L | exact S ].
Defined.

Lemma blank_text_short_circuits_witness :
  translate_text plain_lower (always (lit "es")) (always (lit "es"))
    (always (lit "che")) 3 (lit "   " ++ [9; 10; 12288]%N)
  = ([], Return EMPTY_TEXT_MESSAGE).
Proof.
  apply blank_text_short_circuits.
  unfold blank. repeat constructor.
Defined.

Lemma sub_detectors_absorb_exceptions_witness :
  outcome (_detect_language_statistical plain_lower (always (lit "zh-cn"))
             (lit "ni hao"))
  = Return UNKNOWN_LANG_CODE
  /\ outcome (_detect_language_llm plain_lower
                (failing (OtherException (lit "TimeoutError") (lit "")))
                (lit "ni hao"))
     = Return UNKNOWN_LANG_CODE.
Proof.
  destruct (sub_detectors_absorb_exceptions plain_lower
              (always (lit "zh-cn"))
              (failing (OtherException (lit "TimeoutError") (lit "")))
              (lit "ni hao")) as [_ [_ [Stat [_ [_ Llm]]]]].
  split.
  - apply (Stat (lit "zh-cn")); [ reflexivity | reflexivity | ].
    intros [code [T E]].
    destruct code as [ | a [ | b [ | c code]]]; try discriminate T.
    vm_compute in E. discriminate E.
  - apply (Llm (OtherException (lit "TimeoutError") (lit ""))); reflexivity.
Defined.

(** C5, as stated: a task cancelled while the completion client or the
    classifier is at work receives [asyncio.CancelledError], which is
    not an instance of [Exception]; both detectors let it out to their
    caller instead of answering with the unknown sentinel. *)
Lemma sub_detectors_let_cancellation_out :
  outcome (_detect_language_llm plain_lower (failing CancelledError)
             (lit "hola"))
  = Raise CancelledError
  /\ outcome (_detect_language_statistical plain_lower
                (failing CancelledError) (lit "hola"))
     = Raise CancelledError
  /\ Raise CancelledError <> Return UNKNOWN_LANG_CODE.
Proof.
  split; [ reflexivity | split; [ reflexivity | discriminate ] ].
Qed.

Lemma translator_errors_normalised_witness :
  outcome (translate_text plain_lower (always (lit "es")) (always (lit "es"))
             (failing (TranslationError (lit "malformed output"))) 3
             (lit "hola"))
  = Raise (TranslationError (lit "malformed output")).
Proof.
  destruct (translator_errors_normalised plain_lower (always (lit "es"))
              (always (lit "es"))
              (failing (TranslationError (lit "malformed output"))) 3
              (lit "hola") (TranslationError (lit "malformed output")))
    as [Same _].
  - vm_compute. do 3 right. left. reflexivity.
  - reflexivity.
  - apply Same. reflexivity.
Defined.

(** C7, as stated: the translator is called and its task is cancelled.
    [asyncio.CancelledError] is neither a [TranslationError] nor an
    instance of [Exception]; it leaves [translate_text] as it is, not
    wrapped in an [AppError]. *)
Lemma translator_cancellation_is_not_wrapped :
  In (Call_translate (lit "hola"))
     (trace (translate_text plain_lower (always (lit "es"))
               (always (lit "es")) (failing CancelledError) 3 (lit "hola")))
  /\ is_TranslationError CancelledError = false
  /\ outcome (translate_text plain_lower (always (lit "es"))
                (always (lit "es")) (failing CancelledError) 3 (lit "hola"))
     = Raise CancelledError
  /\ outcome (translate_text plain_lower (always (lit "es"))
                (always (lit "es")) (failing CancelledError) 3 (lit "hola"))
     <> Raise (AppError TRANSLATION_PROCESS_ERROR (Some CancelledError)).
Proof.
  split; [ vm_compute; do 3 right; left; reflexivity | ].
  split; [ reflexivity | ].
  split; [ reflexivity | ].
  vm_compute. discriminate.
Qed.

Lemma translate_text_routes_by_code_witness :
  outcome (_detect_language plain_lower (always (lit "es"))
             (always (lit "es")) 3 (lit "hola")) = Return es
  /\ filter is_translate_call
       (trace (translate_text plain_lower (always (lit "es"))
                 (always (lit "es")) (always (lit "che")) 3 (lit "hola")))
     = [Call_translate (lit "hola")].
Proof.
  destruct (translate_text_routes_by_code plain_lower (always (lit "es"))
              (always (lit "es")) (always (lit "che")) 3 (lit "hola"))
    as [Routes _].
  - intros B. apply Forall_inv in B. vm_compute in B. discriminate B.
  - split; [ reflexivity | ].
    destruct (Routes es eq_refl) as [Called _].
    apply Called. right. left. reflexivity.
Defined.

(** C1, as stated: the single space is a non-empty text for which
    [_detect_language] returns "en" (the completion client says so), yet
    [translate_text] does not call the translator: it answers with the
    prompt for blank input. *)
Lemma routing_fails_on_blank_text :
  lit " " <> []
  /\ outcome (_detect_language plain_lower (always (lit "es"))
                (always (lit "en")) 3 (lit " ")) = Return en
  /\ translate_text plain_lower (always (lit "es")) (always (lit "en"))
       (always (lit "che")) 3 (lit " ")
     = ([], Return EMPTY_TEXT_MESSAGE)
  /\ ~ routes_by_detected_code plain_lower (always (lit "es"))
         (always (lit "en")) (always (lit "che")) 3 (lit " ").
Proof.
  split; [ discriminate | ].
  split; [ reflexivity | ].
  split; [ reflexivity | ].
  intros Routes. destruct (Routes en eq_refl) as [Called _].
  specialize (Called (or_introl eq_refl)).
  vm_compute in Called. discriminate Called.
Qed.

Lemma ascii_ratio_override_witness :
  outcome (_detect_language plain_lower (always (lit "fr"))
             (always (lit "fr")) 3 (lit "bonjour tout le monde mes amis"))
  = Return en.
Proof.
  apply (ascii_ratio_override plain_lower (always (lit "fr"))
           (always (lit "fr")) 3 (lit "bonjour tout le monde mes amis")
           (lit "fr")).
  - intros H. apply has_english_marker_spec in H.
    vm_compute in H. discriminate H.
  - reflexivity.
  - intros [H | [H | H]]; vm_compute in H; discriminate H.
  - vm_compute. discriminate.
  - vm_compute. lia.
Defined.

Lemma english_marker_ignores_word_boundaries_witness :
  _detect_language plain_lower (always (lit "es")) (always (lit "es")) 3
    (lit "Mi Amor")
  = ([Enter_detect_language], Return en).
Proof.
  apply (proj1 (english_marker_ignores_word_boundaries plain_lower
                  (always (lit "es")) (always (lit "es")) 3)
           (lit "Mi Amor") (lit "m") (lit "i am") (lit "or")).
  - do 5 right. left. reflexivity.
  - reflexivity.
Defined.

(** C8: a text of four words with three ASCII characters out of seven,
    for which the classifier answers "en" followed by a line feed.  The
    pattern accepts that answer, the ASCII override does not apply, and
    [_detect_language] returns the three characters: neither a
    two-letter code nor the unknown sentinel.  [translate_text] then
    reports the language as not supported. *)
Theorem statistical_newline_code_escapes :
  let text := [233; 32; 233; 32; 233; 32; 233]%N in
  let answer := lit "en" ++ [10%N] in
  forall acomplete translate,
    ISO_639_1_PATTERN_match answer = true
    /\ _detect_language plain_lower (always answer) acomplete 3 text
       = ([Enter_detect_language; Enter_detect_language_statistical;
           Call_detect text], Return answer)
    /\ is_two_letter_code answer = false
    /\ answer <> UNKNOWN_LANG_CODE
    /\ translate_text plain_lower (always answer) acomplete translate 3 text
       = ([Enter_detect_language; Enter_detect_language_statistical;
           Call_detect text], Return (UNSUPPORTED_MESSAGE answer)).
Proof.
  intros text answer acomplete translate.
  repeat split; try reflexivity.
  discriminate.
Qed.

(** * Further properties of the service *)

(** ** Trimming a padded answer *)

Module PadFacts.

Lemma lstrip_spaces (ws s : str) :
  forallb isspace ws = true -> lstrip (ws ++ s) = lstrip s.
Proof.
  induction ws as [ | c ws IH]; cbn; [ reflexivity | ].
  rewrite andb_true_iff. intros [-> H]. now apply IH.
Qed.

Lemma lstrip_nonspace (c : N) (s : str) :
  isspace c = false -> lstrip (c :: s) = c :: s.
Proof. intros H. cbn. now rewrite H. Qed.

(** [strip] removes the white space around a core that begins and ends
    with other characters, and nothing else. *)
Lemma strip_padded (ws1 ws2 mid : str) (a b : N) :
  forallb isspace ws1 = true -> forallb isspace ws2 = true ->
  isspace a = false -> isspace b = false ->
  strip (ws1 ++ (a :: mid ++ [b]) ++ ws2) = a :: mid ++ [b].
Proof.
  intros W1 W2 A B. unfold strip, rstrip.
  rewrite lstrip_spaces by exact W1.
  change ((a :: mid ++ [b]) ++ ws2) with (a :: (mid ++ [b]) ++ ws2).
  rewrite lstrip_nonspace by exact A.
  change (a :: (mid ++ [b]) ++ ws2) with ((a :: mid ++ [b]) ++ ws2).
  rewrite rev_app_distr.
  rewrite lstrip_spaces by (now rewrite PyStrFacts.forallb_rev).
  assert (R : rev (a :: mid ++ [b]) = b :: rev mid ++ [a]).
  { cbn [rev]. rewrite rev_app_distr. reflexivity. }
  rewrite R, lstrip_nonspace by exact B.
  rewrite <- R. apply rev_involutive.
Qed.

Lemma ascii_letter_not_space (c : N) :
  is_ascii_letter c = true -> isspace c = false.
Proof.
  unfold is_ascii_letter, isspace. intros H.
  rewrite orb_true_iff, !andb_true_iff, !N.leb_le in H.
  repeat match goal with
         | |- context [(?x <=? ?y)%N] => destruct (N.leb_spec x y)
         | |- context [(?x =? ?y)%N] => destruct (N.eqb_spec x y)
         end; cbn; try reflexivity; lia.
Qed.

Lemma ascii_letter_lower (c : N) :
  is_ascii_letter c = true ->
  (c <? 128)%N = true /\ is_az (ascii_lower c) = true.
Proof.
  unfold is_ascii_letter, is_az, ascii_lower. intros H.
  rewrite orb_true_iff, !andb_true_iff, !N.leb_le in H.
  split; [ apply N.ltb_lt; lia | ].
  destruct (N.leb_spec 65 c); destruct (N.leb_spec c 90); cbn [andb];
    apply andb_true_iff; rewrite !N.leb_le; lia.
Qed.

Lemma split_from_pending (s cur : str) :
  cur <> [] -> split_from cur s <> [].
Proof.
  revert cur. induction s as [ | c s IH]; intros cur NE; cbn.
  - destruct cur; [ contradiction | discriminate ].
  - destruct (isspace c).
    + destruct cur; [ contradiction | discriminate ].
    + apply IH. discriminate.
Qed.

(** A text that is not all white space has at least one word. *)
Lemma split_nonblank (s : str) :
  forallb isspace s = false -> split s <> [].
Proof.
  unfold split. generalize (@nil N) as cur.
  induction s as [ | c s IH]; intros cur; cbn; [ discriminate | ].
  destruct (isspace c); cbn.
  - intros H. destruct cur; [ now apply IH | discriminate ].
  - intros _. apply split_from_pending. discriminate.
Qed.

End PadFacts.

(** ** Runs of [translate_text] as a whole *)

Lemma ascii_count_all (text : str) :
  forallb (fun c => (c <? 128)%N) text = true ->
  ascii_count text = List.length text.
Proof.
  unfold ascii_count. induction text as [ | c text IH]; cbn;
    [ reflexivity | ].
  rewrite andb_true_iff. intros [-> H]. cbn. now rewrite IH.
Qed.

(** A quotient of equal counts is above the literal [0.9]. *)
Lemma full_ratio_above_0_9 (n : Z) :
  (0 < n)%Z ->
  Float.gt (Float.int_true_divide n n) Float.f0_9 = true.
Proof.
  intros P. apply FloatFacts.gt_0_9_iff; [ lia | exact P | ].
  change (2 ^ 54)%Z with 18014398509481984%Z. lia.
Qed.

Lemma blank_forallb (text : str) :
  blank text <-> forallb isspace text = true.
Proof.
  unfold blank. rewrite forallb_forall, Forall_forall. reflexivity.
Qed.

Section ServiceRuns.

Variable nonascii_lower : str -> N -> str -> str.
Variable detect : str -> result str.
Variable acomplete : str -> result str.
Variable translate : str -> result str.
Variable SHORT_INPUT_WORD_THRESHOLD : Z.

Local Notation "'detect_statistical'" :=
  (_detect_language_statistical nonascii_lower detect).
Local Notation "'detect_llm'" :=
  (_detect_language_llm nonascii_lower acomplete).
Local Notation "'detect_tier'" :=
  (tier_detection nonascii_lower detect acomplete
     SHORT_INPUT_WORD_THRESHOLD).
Local Notation "'detect_language'" :=
  (_detect_language nonascii_lower detect acomplete
     SHORT_INPUT_WORD_THRESHOLD).
Local Notation "'translate_service'" :=
  (translate_text nonascii_lower detect acomplete translate
     SHORT_INPUT_WORD_THRESHOLD).
Local Notation "'final_code'" :=
  (fun text =>
     if has_english_marker nonascii_lower text then en
     else ascii_override text
            (tier_code nonascii_lower detect acomplete
               SHORT_INPUT_WORD_THRESHOLD text)).

(** The three traces a detection can leave. *)
Lemma detection_trace_cases (text : str) :
  let tr := trace (detect_language text) in
  tr = [Enter_detect_language]
  \/ tr = [Enter_detect_language; Enter_detect_language_llm;
           Call_acomplete (LANG_DETECT_PROMPT_format (detection_text text))]
  \/ tr = [Enter_detect_language; Enter_detect_language_statistical;
           Call_detect text].
Proof.
  cbv zeta. rewrite detect_language_run.
  destruct (has_english_marker nonascii_lower text); cbn [trace fst];
    [ left; reflexivity | right ].
  unfold tier_trace. destruct (_ <=? _)%Z; [ left | right ]; reflexivity.
Qed.

(** The runs of [translate_text]: the prompt for blank text; an
    exception that is not an instance of [Exception], passed on from
    the detection; the notice for an unsupported code; the translator
    otherwise. *)
Lemma translate_text_cases (text : str) :
  (blank text /\ translate_service text = ([], Return EMPTY_TEXT_MESSAGE))
  \/ (~ blank text /\
      ((exists e,
           outcome (detect_language text) = Raise e /\
           is_Exception e = false /\
           (detect text = Raise e
            \/ acomplete (LANG_DETECT_PROMPT_format (detection_text text))
               = Raise e) /\
           translate_service text = (trace (detect_language text), Raise e))
       \/ exists code,
           outcome (detect_language text) = Return code /\
           ((unsupported code = true /\
             translate_service text
             = (trace (detect_language text),
                Return (UNSUPPORTED_MESSAGE code)))
            \/ (unsupported code = false /\
                translate_service text
                = (trace (detect_language text) ++ [Call_translate text],
                   match translate text with
                   | Return translated => Return translated
                   | Raise e =>
                       Raise (if is_Exception e
                              then if is_TranslationError e then e
                                   else AppError TRANSLATION_PROCESS_ERROR
                                          (Some e)
                              else e)
                   end))))).
Proof.
  destruct (strip text) as [ | c rest] eqn:S.
  - left. split; [ now apply strip_blank | ].
    unfold translate_text. now rewrite S.
  - right. assert (NB : strip text <> []) by (rewrite S; discriminate).
    split; [ now rewrite <- strip_blank | ].
    rewrite (translate_text_run nonascii_lower detect acomplete translate
               SHORT_INPUT_WORD_THRESHOLD text NB).
    pose proof (detect_language_raise_origin nonascii_lower detect acomplete
                  SHORT_INPUT_WORD_THRESHOLD text) as RO.
    destruct (detect_language text) as [tr [code | e]];
      cbn [outcome snd trace fst] in *.
    + right. exists code. split; [ reflexivity | ].
      destruct (unsupported code); [ left | right ]; split; reflexivity.
    + left. exists e. destruct (RO e eq_refl) as [E O]. rewrite E.
      split; [ reflexivity | split; [ reflexivity | split ] ];
        [ exact O | reflexivity ].
Qed.

Lemma detection_trace_translate_free (text : str) (c : str) :
  ~ In (Call_translate c) (trace (detect_language text)).
Proof.
  intros I.
  assert (F : In (Call_translate c)
                 (filter is_translate_call (trace (detect_language text))))
    by (apply filter_In; split; [ exact I | reflexivity ]).
  rewrite detect_language_has_no_translate in F. destruct F.
Qed.

(** Whatever leaves [translate_text] as an exception was raised by one
    of its collaborators.  Either the translator was called and raised:
    then the exception is the translator's own [TranslationError], or
    an [AppError] with the message of the translation step and the
    translator's exception as its cause, or the translator's exception
    itself when that is not an instance of [Exception].  Or the
    classifier or the completion client raised an exception that is not
    an instance of [Exception]: it leaves [translate_text] as it is and
    the translator is not called.  No instance of [Exception] raised
    by the classifier or the completion client, and no [AppError] of
    the detection step, ever leaves [translate_text]. *)
Theorem translate_text_raises_only_for_collaborators
    (text : str) (e : exn) :
  outcome (translate_service text) = Raise e ->
  (exists cause,
      In (Call_translate text) (trace (translate_service text))
      /\ translate text = Raise cause
      /\ e = (if is_Exception cause
              then if is_TranslationError cause then cause
                   else AppError TRANSLATION_PROCESS_ERROR (Some cause)
              else cause))
  \/ (is_Exception e = false
      /\ ~ In (Call_translate text) (trace (translate_service text))
      /\ (detect text = Raise e
          \/ acomplete (LANG_DETECT_PROMPT_format (detection_text text))
             = Raise e)).
Proof.
  intros R.
  pose proof (detection_trace_translate_free text text) as NT.
  destruct (translate_text_cases text)
    as [[_ E] | [_ [[e' [_ [Ex [O E]]]]
                   | [code [_ [[_ E] | [_ E]]]]]]];
    rewrite E in *; cbn [outcome snd trace fst] in *; try discriminate R.
  - injection R as <-. right. split; [ exact Ex | split; assumption ].
  - destruct (translate text) as [translated | cause]; [ discriminate R | ].
    injection R as <-. left. exists cause.
    split; [ apply in_or_app; right; left; reflexivity | ].
    split; reflexivity.
Qed.

(** When the translator is called and returns, [translate_text] returns
    the translator's text as it is. *)
Theorem translator_result_returned (text translated : str) :
  In (Call_translate text) (trace (translate_service text)) ->
  translate text = Return translated ->
  outcome (translate_service text) = Return translated.
Proof.
  intros Called Ok.
  pose proof (detection_trace_translate_free text text) as NT.
  destruct (translate_text_cases text)
    as [[_ E] | [_ [[e' [_ [_ [_ E]]]]
                   | [code [_ [[_ E] | [_ E]]]]]]];
    rewrite E in *; cbn [outcome snd trace fst] in *.
  - destruct Called.
  - contradiction.
  - contradiction.
  - now rewrite Ok.
Qed.

(** The calls of one run of [translate_text]: at most one detector is
    entered and at most one of the classifier and the completion client
    is called; the translator is called at most once, with the text it
    was given, and its call is the last event of the run. *)
Theorem translate_text_call_budget (text : str) :
  let tr := trace (translate_service text) in
  count is_llm_entry tr + count is_statistical_entry tr <= 1
  /\ count is_acomplete_call tr + count is_detect_call tr <= 1
  /\ count is_translate_call tr <= 1
  /\ (forall c,
         In (Call_translate c) tr ->
         c = text /\
         exists before,
           tr = before ++ [Call_translate text]
           /\ count is_translate_call before = 0).
Proof.
  cbv zeta.
  pose proof (detection_trace_cases text) as D. cbv zeta in D.
  pose proof (detection_trace_translate_free text) as NT.
  destruct (translate_text_cases text)
    as [[_ E] | [_ [[e' [_ [_ [_ E]]]]
                   | [code [_ [[_ E] | [_ E]]]]]]];
    rewrite E; cbn [trace fst]; clear E.
  - split; [ | split; [ | split ] ]; cbn; [ lia | lia | lia | ].
    intros c [].
  - split; [ | split; [ | split ] ].
    + destruct D as [-> | [-> | ->]]; cbn; lia.
    + destruct D as [-> | [-> | ->]]; cbn; lia.
    + destruct D as [-> | [-> | ->]]; cbn; lia.
    + intros c I. exfalso. exact (NT c I).
  - split; [ | split; [ | split ] ].
    + destruct D as [-> | [-> | ->]]; cbn; lia.
    + destruct D as [-> | [-> | ->]]; cbn; lia.
    + destruct D as [-> | [-> | ->]]; cbn; lia.
    + intros c I. exfalso. exact (NT c I).
  - split; [ | split; [ | split ] ].
    + destruct D as [-> | [-> | ->]]; cbn; lia.
    + destruct D as [-> | [-> | ->]]; cbn; lia.
    + destruct D as [-> | [-> | ->]]; cbn; lia.
    + intros c I. apply in_app_or in I. destruct I as [I | [I | []]].
      * exfalso. exact (NT c I).
      * injection I as <-. split; [ reflexivity | ].
        eexists. split; [ reflexivity | ].
        destruct D as [-> | [-> | ->]]; reflexivity.
Qed.

(** A code that is supported or unknown sends a text that is not blank
    to the translator. *)
Lemma supported_code_reaches_translator (text code : str) :
  ~ blank text ->
  outcome (detect_language text) = Return code ->
  unsupported code = false ->
  trace (translate_service text)
  = trace (detect_language text) ++ [Call_translate text].
Proof.
  intros NB Hc U.
  destruct (translate_text_cases text)
    as [[B _] | [_ [[e' [Hr _]]
                   | [code' [Hc' [[U' E] | [_ E]]]]]]].
  - contradiction.
  - congruence.
  - rewrite Hc in Hc'. injection Hc' as <-. congruence.
  - rewrite E. reflexivity.
Qed.

Lemma pattern_match_lower (raw : str) :
  ISO_639_1_PATTERN_match raw = true -> lower nonascii_lower raw = raw.
Proof.
  destruct raw as [ | a [ | b [ | c [ | d raw]]]];
    cbn [ISO_639_1_PATTERN_match]; try discriminate.
  - intros H. now apply two_letter_code_lower.
  - rewrite !andb_true_iff, N.eqb_eq. intros [[A B] ->].
    unfold lower. cbn [lower_from].
    rewrite (is_az_ascii a A), (is_az_ascii b B).
    rewrite (PyStrFacts.ascii_lower_az a A), (PyStrFacts.ascii_lower_az b B).
    reflexivity.
Qed.

Lemma prompt_length (shown : str) :
  List.length (LANG_DETECT_PROMPT_format shown) = 260 + List.length shown.
Proof.
  unfold LANG_DETECT_PROMPT_format. rewrite !length_app.
  change (List.length LANG_DETECT_PROMPT_head) with 245.
  change (List.length LANG_DETECT_PROMPT_tail) with 15. lia.
Qed.

Lemma detection_text_is_slice (text : str) :
  detection_text text = slice_to 100 text.
Proof.
  unfold detection_text, slice_to.
  destruct (Nat.ltb_spec 100 (List.length text)); [ reflexivity | ].
  now rewrite firstn_all2 by lia.
Qed.

(** A text that is not blank and contains an English marker goes to the
    translator with no detector entered and no classifier or completion
    call: the run is the entry into [_detect_language] and the call of
    the translator. *)
Theorem marker_text_goes_straight_to_translator (text : str) :
  ~ blank text ->
  contains_english_marker nonascii_lower text ->
  trace (translate_service text)
  = [Enter_detect_language; Call_translate text].
Proof.
  intros NB Mk. apply has_english_marker_spec in Mk.
  assert (D : detect_language text = ([Enter_detect_language], Return en))
    by (rewrite detect_language_run, Mk; reflexivity).
  rewrite (supported_code_reaches_translator text en NB);
    rewrite ?D; reflexivity.
Qed.

(** The LLM detector repairs padding and case: an answer of the
    completion client made of two ASCII letters, in any case, with white
    space around them gives the two letters in lower case. *)
Theorem llm_answer_is_trimmed_and_lowered
    (text ws1 ws2 : str) (a b : N) :
  forallb isspace ws1 = true -> forallb isspace ws2 = true ->
  is_ascii_letter a = true -> is_ascii_letter b = true ->
  acomplete (LANG_DETECT_PROMPT_format (detection_text text))
  = Return (ws1 ++ [a; b] ++ ws2) ->
  outcome (detect_llm text) = Return [ascii_lower a; ascii_lower b].
Proof.
  intros W1 W2 A B Ans. rewrite llm_run. cbn [outcome snd].
  unfold llm_code. rewrite Ans. cbn [passes_through finish]. cbv zeta.
  pose proof (PadFacts.strip_padded ws1 ws2 [] a b W1 W2
                (PadFacts.ascii_letter_not_space a A)
                (PadFacts.ascii_letter_not_space b B)) as S.
  cbn [app] in S. cbn [app]. rewrite S.
  destruct (PadFacts.ascii_letter_lower a A) as [Aa La].
  destruct (PadFacts.ascii_letter_lower b B) as [Ab Lb].
  rewrite PyStrFacts.lower_ascii by (cbn; now rewrite Aa, Ab).
  cbn [map].
  assert (U : eqb [ascii_lower a; ascii_lower b] UNKNOWN_LANG_CODE = false).
  { apply PyStrFacts.eqb_neq. intros H. vm_compute in H. discriminate H. }
  rewrite U. cbn [orb ISO_639_1_PATTERN_match]. now rewrite La, Lb.
Qed.

(** The statistical detector repairs nothing: what it returns is the
    unknown sentinel or the answer of the classifier exactly as it
    came, the lower-casing of an accepted answer never changing it.  It
    returns unless the classifier raises an exception that is not an
    instance of [Exception]. *)
Theorem statistical_answer_is_raw_or_unknown (text : str) :
  (forall code,
      outcome (detect_statistical text) = Return code ->
      code = UNKNOWN_LANG_CODE
      \/ (detect text = Return code
          /\ ISO_639_1_PATTERN_match code = true))
  /\ (forall e,
         outcome (detect_statistical text) = Raise e ->
         is_Exception e = false /\ detect text = Raise e).
Proof.
  rewrite statistical_run. cbn [outcome snd]. unfold statistical_code.
  destruct (detect text) as [raw | e0]; cbn [passes_through].
  - cbn [finish]. split; [ | discriminate ].
    intros code H. injection H as <-.
    destruct (ISO_639_1_PATTERN_match raw) eqn:Mt; [ | left; reflexivity ].
    rewrite (pattern_match_lower raw Mt).
    right. split; [ reflexivity | exact Mt ].
  - destruct (is_Exception e0) eqn:Ex; cbn [finish].
    + split; [ | discriminate ].
      intros code H. injection H as <-. left. reflexivity.
    + split; [ discriminate | ].
      intros e H. injection H as <-. split; [ exact Ex | reflexivity ].
Qed.

Lemma ascii_text_code_is_supported (text code : str) :
  text <> [] ->
  forallb (fun c => (c <? 128)%N) text = true ->
  outcome (detect_language text) = Return code ->
  unsupported code = false.
Proof.
  intros NE Asc. rewrite detect_language_run.
  destruct (has_english_marker nonascii_lower text); cbn [outcome snd].
  - intros H. injection H as <-. reflexivity.
  - destruct (tier_passes_through _ _ _ _); cbn [finish];
      [ discriminate | ].
    intros H. injection H as <-. unfold ascii_override.
    destruct (unsupported (tier_code _ _ _ _ _)) eqn:U; cbn [andb];
      [ | exact U ].
    rewrite (ascii_count_all text Asc).
    assert (T : total_count text = List.length text)
      by (destruct text; [ contradiction | reflexivity ]).
    rewrite T, full_ratio_above_0_9; [ reflexivity | ].
    destruct text; [ contradiction | cbn; lia ].
Qed.

(** A text of ASCII characters that is not blank is never answered with
    the unsupported-language notice: whatever code the detection
    returns is "en", "es" or the unknown sentinel, and the translator
    is called with the text.  This holds for texts of any length.  The
    detection returns a code unless the classifier or the completion
    client raises an exception that is not an instance of
    [Exception]. *)
Theorem ascii_text_is_always_translated (text : str) :
  ~ blank text ->
  forallb (fun c => (c <? 128)%N) text = true ->
  (forall code,
      outcome (detect_language text) = Return code ->
      (code = en \/ code = es \/ code = UNKNOWN_LANG_CODE)
      /\ trace (translate_service text)
         = trace (detect_language text) ++ [Call_translate text])
  /\ (forall e,
         outcome (detect_language text) = Raise e ->
         is_Exception e = false
         /\ (detect text = Raise e
             \/ acomplete (LANG_DETECT_PROMPT_format (detection_text text))
                = Raise e)).
Proof.
  intros NB Asc.
  assert (NE : text <> []) by (intros ->; apply NB; constructor).
  split.
  - intros code Hc.
    pose proof (ascii_text_code_is_supported text code NE Asc Hc) as U.
    split; [ now apply unsupported_false_iff | ].
    now apply (supported_code_reaches_translator text code).
  - apply detect_language_raise_origin.
Qed.

(** With the classifier and the completion client both out of order,
    each raising an instance of [Exception] at every call, a text that
    is not blank is still sent to the translator: the detected code is
    "en" (by a marker) or the unknown sentinel. *)
Theorem detector_outage_still_translates (text : str) :
  ~ blank text ->
  (forall prompt,
      exists e, acomplete prompt = Raise e /\ is_Exception e = true) ->
  (forall t, exists e, detect t = Raise e /\ is_Exception e = true) ->
  (outcome (detect_language text) = Return en
   \/ outcome (detect_language text) = Return UNKNOWN_LANG_CODE)
  /\ trace (translate_service text)
     = trace (detect_language text) ++ [Call_translate text].
Proof.
  intros NB Llm Stat.
  destruct (Llm (LANG_DETECT_PROMPT_format (detection_text text)))
    as [e1 [A1 X1]].
  destruct (Stat text) as [e2 [A2 X2]].
  assert (T : tier_code nonascii_lower detect acomplete
                SHORT_INPUT_WORD_THRESHOLD text = UNKNOWN_LANG_CODE).
  { unfold tier_code, llm_code, statistical_code.
    rewrite A1, A2. now destruct (_ <=? _)%Z. }
  assert (P : tier_passes_through detect acomplete
                SHORT_INPUT_WORD_THRESHOLD text = None).
  { unfold tier_passes_through. rewrite A1, A2. cbn [passes_through].
    rewrite X1, X2. now destruct (_ <=? _)%Z. }
  assert (D : outcome (detect_language text) = Return en
              \/ outcome (detect_language text) = Return UNKNOWN_LANG_CODE).
  { rewrite detect_language_run.
    destruct (has_english_marker nonascii_lower text); cbn [outcome snd];
      [ left; reflexivity | right ].
    rewrite T, P. reflexivity. }
  split; [ exact D | ].
  destruct D as [D | D];
    [ apply (supported_code_reaches_translator text en)
    | apply (supported_code_reaches_translator text UNKNOWN_LANG_CODE) ];
    auto.
Qed.

(** Every prompt sent to the completion client during [translate_text]
    is the template filled with [text[:100]]: 260 characters of
    template and at most 100 characters of the text. *)
Theorem llm_prompt_is_bounded (text prompt : str) :
  In (Call_acomplete prompt) (trace (translate_service text)) ->
  prompt = LANG_DETECT_PROMPT_format (slice_to 100 text)
  /\ List.length prompt = 260 + Nat.min 100 (List.length text)
  /\ List.length prompt <= 360.
Proof.
  intros I.
  assert (P : prompt = LANG_DETECT_PROMPT_format (detection_text text)).
  { pose proof (detection_trace_cases text) as D. cbv zeta in D.
    assert (I' : In (Call_acomplete prompt) (trace (detect_language text))).
    { destruct (translate_text_cases text)
        as [[_ E] | [_ [[e' [_ [_ [_ E]]]]
                       | [code [_ [[_ E] | [_ E]]]]]]];
        rewrite E in I; cbn [trace fst] in I.
      - destruct I.
      - exact I.
      - exact I.
      - apply in_app_or in I. destruct I as [I | [I | []]];
          [ exact I | discriminate I ]. }
    destruct D as [D | [D | D]]; rewrite D in I'; cbn in I';
      repeat (destruct I' as [I' | I']; try discriminate I');
      try contradiction.
    now injection I' as <-. }
  rewrite detection_text_is_slice in P. subst prompt.
  rewrite prompt_length. unfold slice_to. rewrite length_firstn.
  repeat split; lia.
Qed.

(** The ASCII override only ever replaces an unsupported code: without
    a marker, a code "en", "es" or unknown from the chosen detector is
    the result of [_detect_language] whatever the share of ASCII
    characters, and in every run the result is "en" or the code of the
    chosen detector. *)
Theorem supported_code_is_never_overridden (text code : str) :
  outcome (detect_tier text) = Return code ->
  (outcome (detect_language text) = Return en
   \/ outcome (detect_language text) = Return code)
  /\ (~ contains_english_marker nonascii_lower text ->
      code = en \/ code = es \/ code = UNKNOWN_LANG_CODE ->
      outcome (detect_language text) = Return code).
Proof.
  intros Tier. rewrite tier_run in Tier. cbn [outcome snd] in Tier.
  rewrite detect_language_run.
  destruct (tier_passes_through _ _ _ _); cbn [finish] in *;
    [ discriminate Tier | ].
  injection Tier as Tier.
  split.
  - destruct (has_english_marker nonascii_lower text); cbn [outcome snd];
      [ left; reflexivity | ].
    unfold ascii_override. rewrite Tier.
    destruct (_ && _); [ left | right ]; reflexivity.
  - intros NM Sup. apply no_english_marker in NM. rewrite NM.
    cbn [outcome snd]. unfold ascii_override. rewrite Tier.
    apply unsupported_false_iff in Sup. now rewrite Sup.
Qed.

Lemma nonblank_has_a_word (text : str) :
  ~ blank text -> (1 <= word_count text)%Z.
Proof.
  intros NB. rewrite blank_forallb in NB.
  apply not_true_is_false, PadFacts.split_nonblank in NB.
  unfold word_count.
  destruct (split text); [ contradiction | cbn [List.length]; lia ].
Qed.

(** A threshold of zero or below switches the LLM detector off for
    [translate_text]: in no run is the detector entered or the
    completion client called. *)
Theorem nonpositive_threshold_disables_llm (text : str) :
  (SHORT_INPUT_WORD_THRESHOLD <= 0)%Z ->
  count is_llm_entry (trace (translate_service text)) = 0
  /\ count is_acomplete_call (trace (translate_service text)) = 0.
Proof.
  intros TH.
  destruct (translate_text_cases text) as [[_ E] | [NB E]].
  - rewrite E. split; reflexivity.
  - pose proof (nonblank_has_a_word text NB) as W.
    assert (D : count is_llm_entry (trace (detect_language text)) = 0
                /\ count is_acomplete_call (trace (detect_language text))
                   = 0).
    { rewrite detect_language_run.
      destruct (has_english_marker nonascii_lower text); cbn [trace fst];
        [ split; reflexivity | ].
      unfold tier_trace.
      destruct (Z.leb_spec (word_count text) SHORT_INPUT_WORD_THRESHOLD);
        [ lia | split; reflexivity ]. }
    destruct D as [D1 D2].
    destruct E as [[e' [_ [_ [_ E]]]] | [code [_ [[_ E] | [_ E]]]]];
      rewrite E; cbn [trace fst].
    + split; assumption.
    + split; assumption.
    + unfold count in *. rewrite !filter_app, !length_app, D1, D2.
      split; reflexivity.
Qed.

(** The unknown sentinel or a two-letter lower-case code is all the LLM
    detector ever returns, and all [_detect_language] returns in a run
    where the answer of the classifier does not end in a line feed.
    The two premises on the lower-case tables say that a code point
    outside ASCII is mapped neither to nothing nor to a line feed.
    Both return a code unless the classifier or the completion client
    raises an exception that is not an instance of [Exception]. *)
Theorem detection_result_invariant_apart_from_line_feed (text : str) :
  (forall before c after,
      (128 <= c)%N -> nonascii_lower before c after <> []) ->
  (forall before c after,
      (128 <= c)%N -> ~ In 10%N (nonascii_lower before c after)) ->
  (forall code,
      outcome (detect_llm text) = Return code -> is_detection_result code)
  /\ ((forall raw pre, detect text = Return raw -> raw <> pre ++ [10%N]) ->
      forall code,
        outcome (detect_language text) = Return code ->
        is_detection_result code)
  /\ (forall e,
         outcome (detect_llm text) = Raise e
         \/ outcome (detect_language text) = Raise e ->
         is_Exception e = false
         /\ (detect text = Raise e
             \/ acomplete (LANG_DETECT_PROMPT_format (detection_text text))
                = Raise e)).
Proof.
  intros NE NL. split; [ | split ].
  - intros code. rewrite llm_run. cbn [outcome snd].
    destruct (passes_through _); cbn [finish]; [ discriminate | ].
    intros H. injection H as <-. now apply llm_code_shape.
  - intros ND code. now apply detect_language_shape.
  - intros e [H | H]; [ | now apply detect_language_raise_origin in H ].
    rewrite llm_run in H. cbn [outcome snd] in H.
    destruct (passes_through _) as [e' | ] eqn:P; cbn [finish] in H;
      [ | discriminate H ].
    injection H as <-. apply passes_through_some in P.
    destruct P as [P E]. split; [ exact E | right; exact P ].
Qed.

End ServiceRuns.

(** ** The further properties at concrete inputs *)

Lemma translate_text_raises_only_for_collaborators_witness :
  (exists cause,
      In (Call_translate (lit "hola"))
         (trace (translate_text plain_lower (always (lit "es"))
                   (always (lit "es"))
                   (failing (OtherException (lit "RuntimeError")
                               (lit "boom")))
                   3 (lit "hola")))
      /\ failing (OtherException (lit "RuntimeError") (lit "boom"))
           (lit "hola")
         = Raise cause
      /\ AppError TRANSLATION_PROCESS_ERROR
           (Some (OtherException (lit "RuntimeError") (lit "boom")))
         = (if is_Exception cause
            then if is_TranslationError cause then cause
                 else AppError TRANSLATION_PROCESS_ERROR (Some cause)
            else cause))
  \/ (is_Exception
        (AppError TRANSLATION_PROCESS_ERROR
           (Some (OtherException (lit "RuntimeError") (lit "boom"))))
      = false
      /\ ~ In (Call_translate (lit "hola"))
             (trace (translate_text plain_lower (always (lit "es"))
                       (always (lit "es"))
                       (failing (OtherException (lit "RuntimeError")
                                   (lit "boom")))
                       3 (lit "hola")))
      /\ (always (lit "es") (lit "hola")
          = Raise (AppError TRANSLATION_PROCESS_ERROR
                     (Some (OtherException (lit "RuntimeError")
                              (lit "boom"))))
          \/ always (lit "es")
               (LANG_DETECT_PROMPT_format (detection_text (lit "hola")))
             = Raise (AppError TRANSLATION_PROCESS_ERROR
                        (Some (OtherException (lit "RuntimeError")
                                 (lit "boom")))))).
Proof.
  apply (translate_text_raises_only_for_collaborators plain_lower
           (always (lit "es")) (always (lit "es"))
           (failing (OtherException (lit "RuntimeError") (lit "boom")))
           3 (lit "hola")).
  reflexivity.
Defined.

(** A task cancelled while the completion client is at work: the
    exception leaves [translate_text] as it is, and the translator is
    not called. *)
Example cancellation_during_detection :
  translate_text plain_lower (always (lit "es")) (failing CancelledError)
    (always (lit "che")) 3 (lit "hola")
  = ([Enter_detect_language; Enter_detect_language_llm;
      Call_acomplete (LANG_DETECT_PROMPT_format (lit "hola"))],
     Raise CancelledError).
Proof. reflexivity. Qed.

Lemma translator_result_returned_witness :
  outcome (translate_text plain_lower (always (lit "es")) (always (lit "es"))
             (always (lit "che, hola")) 3 (lit "hola"))
  = Return (lit "che, hola").
Proof.
  apply translator_result_returned.
  - vm_compute. do 3 right. left. reflexivity.
  - reflexivity.
Defined.

Lemma marker_text_goes_straight_to_translator_witness :
  trace (translate_text plain_lower (always (lit "fr")) (always (lit "fr"))
           (always (lit "dale, vamos")) 3 (lit "let's go"))
  = [Enter_detect_language; Call_translate (lit "let's go")].
Proof.
  apply marker_text_goes_straight_to_translator.
  - intros B. apply Forall_inv in B. vm_compute in B. discriminate B.
  - exists (lit "let's"). split; [ left; reflexivity | ].
    exists [], (lit " go"). reflexivity.
Defined.

Lemma llm_answer_is_trimmed_and_lowered_witness :
  outcome (_detect_language_llm plain_lower
             (always (lit " EN" ++ [10%N])) (lit "hello"))
  = Return (lit "en").
Proof.
  apply (llm_answer_is_trimmed_and_lowered plain_lower
           (always (lit " EN" ++ [10%N])) (lit "hello")
           (lit " ") [10%N] 69%N 78%N); reflexivity.
Defined.

Lemma statistical_answer_is_raw_or_unknown_witness :
  lit "es" = UNKNOWN_LANG_CODE
  \/ (always (lit "es") (lit "hola a todos los amigos") = Return (lit "es")
      /\ ISO_639_1_PATTERN_match (lit "es") = true).
Proof.
  apply (proj1 (statistical_answer_is_raw_or_unknown plain_lower
                  (always (lit "es")) (lit "hola a todos los amigos"))).
  reflexivity.
Defined.

Lemma ascii_text_is_always_translated_witness :
  (en = en \/ en = es \/ en = UNKNOWN_LANG_CODE)
  /\ trace (translate_text plain_lower (always (lit "fr"))
              (always (lit "fr")) (always (lit "che")) 3
              (lit "bonjour a tous"))
     = trace (_detect_language plain_lower (always (lit "fr"))
                (always (lit "fr")) 3 (lit "bonjour a tous"))
       ++ [Call_translate (lit "bonjour a tous")].
Proof.
  apply (proj1 (ascii_text_is_always_translated plain_lower
                  (always (lit "fr")) (always (lit "fr"))
                  (always (lit "che")) 3 (lit "bonjour a tous")
                  ltac:(intros B; apply Forall_inv in B;
                        vm_compute in B; discriminate B)
                  eq_refl)).
  reflexivity.
Defined.

Lemma detector_outage_still_translates_witness :
  trace (translate_text plain_lower
           (failing (LangDetectException (lit "No features in text.")))
           (failing (OtherException (lit "APIConnectionError") (lit "")))
           (always (lit "che")) 3 (lit "hola"))
  = trace (_detect_language plain_lower
             (failing (LangDetectException (lit "No features in text.")))
             (failing (OtherException (lit "APIConnectionError") (lit "")))
             3 (lit "hola"))
    ++ [Call_translate (lit "hola")].
Proof.
  apply detector_outage_still_translates.
  - intros B. apply Forall_inv in B. vm_compute in B. discriminate B.
  - intros prompt. eexists. split; reflexivity.
  - intros t. eexists. split; reflexivity.
Defined.

Lemma llm_prompt_is_bounded_witness :
  List.length (LANG_DETECT_PROMPT_format (lit "hola")) <= 360.
Proof.
  apply (llm_prompt_is_bounded plain_lower (always (lit "es"))
           (always (lit "es")) (always (lit "che")) 3 (lit "hola")
           (LANG_DETECT_PROMPT_format (lit "hola"))).
  vm_compute. do 2 right. left. reflexivity.
Defined.

Lemma supported_code_is_never_overridden_witness :
  outcome (_detect_language plain_lower (always (lit "fr"))
             (always (lit "es")) 3 (lit "hola amigo"))
  = Return es.
Proof.
  apply (supported_code_is_never_overridden plain_lower (always (lit "fr"))
           (always (lit "es")) 3 (lit "hola amigo") es).
  - reflexivity.
  - intros H. apply has_english_marker_spec in H.
    vm_compute in H. discriminate H.
  - right. left. reflexivity.
Defined.

Lemma nonpositive_threshold_disables_llm_witness :
  count is_llm_entry
    (trace (translate_text plain_lower (always (lit "es"))
              (always (lit "es")) (always (lit "che")) 0 (lit "hola")))
  = 0
  /\ count is_acomplete_call
       (trace (translate_text plain_lower (always (lit "es"))
                 (always (lit "es")) (always (lit "che")) 0 (lit "hola")))
     = 0.
Proof.
  apply nonpositive_threshold_disables_llm. lia.
Defined.

Lemma detection_result_invariant_witness :
  outcome (_detect_language plain_lower (always (lit "pt"))
             (always (lit "pt")) 3 (lit "tudo bem com a gente"))
  = Return en
  /\ is_detection_result en.
Proof.
  split; [ reflexivity | ].
  destruct (detection_result_invariant_apart_from_line_feed plain_lower
              (always (lit "pt")) (always (lit "pt")) 3
              (lit "tudo bem com a gente")) as [_ [Shape _]].
  - intros before c after _. discriminate.
  - intros before c after A [H | []]. lia.
  - apply (Shape ltac:(intros raw pre H; vm_compute in H;
                       injection H as <-;
                       destruct pre as [ | a [ | b [ | c pre]]];
                       discriminate) en).
    reflexivity.
Defined.
